(** * Honeypot_API: the dashboard aggregation queries of [src/api.ts]

    A shallow embedding of [systemLogApi.createLog] and of the three
    functions of [dashboardApi] ([getStats], [getScamTypeDistribution],
    [getDailyDetections]), together with the part of the JavaScript run-time
    they rest on: truthiness and [||], ordinary objects used as string-keyed
    counters, and [Date] (time values, local time, the ISO rendering).

    Numbers are integers far inside the range a JavaScript number holds
    exactly, so they are modelled in [Z]. *)

From Stdlib Require Import ZArith List String Ascii Bool Lia.
Import ListNotations.

Local Open Scope string_scope.
Local Open Scope Z_scope.

(* ================================================================== *)
(** * JavaScript values and ordinary objects *)

Module JS.

(** The values a counter slot of [distribution] / [detectionsByDate] can
    hold.  The code only ever stores numbers; [Text] stands for the string
    that [+ 1] produces when the slot read back something that is not a
    number (a member inherited from [Object.prototype]): its characters
    depend on the engine, the model only keeps that it is a non-empty
    string. *)
Inductive Val :=
| Num (n : Z)
| Text.

(** What reading [o[k]] gives. *)
Inductive Read :=
| Undefined
| Own (v : Val)
| Inherited.

(** A primitive value or an object, as the operands of [||] and [+]. *)
Inductive Operand :=
| Prim (v : Val)
| Object.

(** [x || 0]: the left operand when it is truthy, [0] otherwise.  [0] and
    [undefined] are falsy; a non-empty string and an object are truthy. *)
Definition or_zero (r : Read) : Operand :=
  match r with
  | Undefined => Prim (Num 0)
  | Own (Num n) => if n =? 0 then Prim (Num 0) else Prim (Num n)
  | Own Text => Prim Text
  | Inherited => Object
  end.

(** [x + 1]: addition on numbers, concatenation once an operand is a string
    or an object (whose conversion to a primitive is a string). *)
Definition plus_one (x : Operand) : Val :=
  match x with
  | Prim (Num n) => Num (n + 1)
  | Prim Text => Text
  | Object => Text
  end.

(** [count || 0] on a count that is a number or [null]. *)
Definition count_or_zero (c : option Z) : Z :=
  match c with
  | Some n => if n =? 0 then 0 else n
  | None => 0
  end.

(** The own enumerable properties of an ordinary object, in the order of
    their creation. *)
Definition Obj := list (string * Val).

Definition empty : Obj := [].

(** The property names every object literal inherits from
    [Object.prototype]. *)
Definition prototype_names : list string :=
  [ "constructor"; "hasOwnProperty"; "isPrototypeOf";
    "propertyIsEnumerable"; "toLocaleString"; "toString"; "valueOf";
    "__defineGetter__"; "__defineSetter__"; "__lookupGetter__";
    "__lookupSetter__"; "__proto__" ].

Definition inherited (k : string) : bool :=
  existsb (String.eqb k) prototype_names.

Fixpoint own (o : Obj) (k : string) : option Val :=
  match o with
  | [] => None
  | (k', v) :: o' => if String.eqb k' k then Some v else own o' k
  end.

(** [o[k]]: the own property, else the inherited member, else
    [undefined]. *)
Definition get (o : Obj) (k : string) : Read :=
  match own o k with
  | Some v => Own v
  | None => if inherited k then Inherited else Undefined
  end.

Fixpoint replace (o : Obj) (k : string) (v : Val) : Obj :=
  match o with
  | [] => []
  | (k', v') :: o' =>
      if String.eqb k' k then (k', v) :: o' else (k', v') :: replace o' k v
  end.

(** [o[k] = v]: an own property keeps its place, a new one is created
    after the existing ones.  [__proto__] is an accessor of
    [Object.prototype] whose setter ignores a value that is neither an
    object nor [null], so the assignment creates nothing. *)
Definition set (o : Obj) (k : string) (v : Val) : Obj :=
  match own o k with
  | Some _ => replace o k v
  | None => if String.eqb k "__proto__" then o else (o ++ [(k, v)])%list
  end.

(** ** Array-index keys

    A key is an array index when it is the canonical decimal writing of an
    integer between [0] and [2^32 - 2]. *)

Definition digit_of (c : ascii) : option Z :=
  let n := Z.of_nat (nat_of_ascii c) in
  if (48 <=? n) && (n <=? 57) then Some (n - 48) else None.

Fixpoint digits_value (s : string) (acc : Z) : option Z :=
  match s with
  | EmptyString => Some acc
  | String c r =>
      match digit_of c with
      | Some d => digits_value r (10 * acc + d)
      | None => None
      end
  end.

Definition array_index (k : string) : option Z :=
  match k with
  | EmptyString => None
  | String c r =>
      if Ascii.eqb c "0" && negb (String.eqb r "") then None
      else match digits_value k 0 with
           | Some n => if n <=? 4294967294 then Some n else None
           | None => None
           end
  end.

Definition is_array_index (k : string) : bool :=
  match array_index k with Some _ => true | None => false end.

(** Insertion of an index-keyed entry into a list sorted by index. *)
Fixpoint insert_by_index (n : Z) (e : string * Val)
         (l : list (Z * (string * Val))) : list (Z * (string * Val)) :=
  match l with
  | [] => [(n, e)]
  | (m, e') :: l' =>
      if n <? m then (n, e) :: l else (m, e') :: insert_by_index n e l'
  end.

Fixpoint index_entries (o : Obj) : list (Z * (string * Val)) :=
  match o with
  | [] => []
  | (k, v) :: o' =>
      match array_index k with
      | Some n => insert_by_index n (k, v) (index_entries o')
      | None => index_entries o'
      end
  end.

Definition named_entries (o : Obj) : list (string * Val) :=
  filter (fun e => negb (is_array_index (fst e))) o.

(** [Object.entries(o)]: the array-index keys first, in ascending numeric
    order, then the other keys in the order of their creation. *)
Definition entries (o : Obj) : list (string * Val) :=
  (map snd (index_entries o) ++ named_entries o)%list.

(** [s.split(sep)] for a one-character separator. *)
Fixpoint split (sep : ascii) (s : string) : list string :=
  match s with
  | EmptyString => [EmptyString]
  | String c r =>
      if Ascii.eqb c sep then EmptyString :: split sep r
      else match split sep r with
           | [] => [String c EmptyString]
           | p :: ps => String c p :: ps
           end
  end.

(** [s.includes(c)] for a character [c]. *)
Fixpoint includes (s : string) (c : ascii) : bool :=
  match s with
  | EmptyString => false
  | String a r => Ascii.eqb a c || includes r c
  end.

End JS.

(* ================================================================== *)
(** * Dates: time values, the calendar, local time, the ISO rendering

    The abstract operations of the ECMAScript [Date] object, on time values
    in milliseconds since 1970-01-01T00:00:00Z. *)

Module ESDate.

Definition msPerDay : Z := 86400000.
Definition msPerHour : Z := 3600000.
Definition msPerMinute : Z := 60000.
Definition msPerSecond : Z := 1000.

Definition Day (t : Z) : Z := t / msPerDay.
Definition TimeWithinDay (t : Z) : Z := t mod msPerDay.

Definition DaysInYear (y : Z) : Z :=
  if negb (y mod 4 =? 0) then 365
  else if negb (y mod 100 =? 0) then 366
  else if negb (y mod 400 =? 0) then 365
  else 366.

Definition DayFromYear (y : Z) : Z :=
  365 * (y - 1970) + (y - 1969) / 4 - (y - 1901) / 100 + (y - 1601) / 400.

Definition TimeFromYear (y : Z) : Z := msPerDay * DayFromYear y.

(** The largest [y] with [TimeFromYear y <= t]: an estimate from the mean
    length of a year, moved by one when it misses. *)
Definition YearFromTime (t : Z) : Z :=
  let y := 1970 + (400 * Day t) / 146097 in
  if TimeFromYear (y + 1) <=? t then y + 1
  else if t <? TimeFromYear y then y - 1
  else y.

Definition InLeapYear (t : Z) : Z :=
  if DaysInYear (YearFromTime t) =? 366 then 1 else 0.

Definition DayWithinYear (t : Z) : Z := Day t - DayFromYear (YearFromTime t).

(** The day within the year on which month [m] (0 = January) starts. *)
Definition MonthStart (m leap : Z) : Z :=
  match m with
  | 0 => 0
  | 1 => 31
  | 2 => 59 + leap
  | 3 => 90 + leap
  | 4 => 120 + leap
  | 5 => 151 + leap
  | 6 => 181 + leap
  | 7 => 212 + leap
  | 8 => 243 + leap
  | 9 => 273 + leap
  | 10 => 304 + leap
  | _ => 334 + leap
  end.

Definition MonthFromTime (t : Z) : Z :=
  let d := DayWithinYear t in
  let leap := InLeapYear t in
  if d <? 31 then 0
  else if d <? 59 + leap then 1
  else if d <? 90 + leap then 2
  else if d <? 120 + leap then 3
  else if d <? 151 + leap then 4
  else if d <? 181 + leap then 5
  else if d <? 212 + leap then 6
  else if d <? 243 + leap then 7
  else if d <? 273 + leap then 8
  else if d <? 304 + leap then 9
  else if d <? 334 + leap then 10
  else 11.

Definition DateFromTime (t : Z) : Z :=
  DayWithinYear t - MonthStart (MonthFromTime t) (InLeapYear t) + 1.

Definition HourFromTime (t : Z) : Z := (t / msPerHour) mod 24.
Definition MinFromTime (t : Z) : Z := (t / msPerMinute) mod 60.
Definition SecFromTime (t : Z) : Z := (t / msPerSecond) mod 60.
Definition msFromTime (t : Z) : Z := t mod msPerSecond.

(** [MakeDay]: the day number of the first of the month, plus [dt - 1]. *)
Definition MakeDay (year month dt : Z) : Z :=
  let ym := year + month / 12 in
  let mn := month mod 12 in
  let leap := if DaysInYear ym =? 366 then 1 else 0 in
  DayFromYear ym + MonthStart mn leap + dt - 1.

Definition MakeDate (day time : Z) : Z := day * msPerDay + time.

(** A [Date] holds a time value or [NaN] ([None], an invalid date). *)
Definition Date := option Z.

Definition TimeClip (t : Z) : Date :=
  if 8640000000000000 <? Z.abs t then None else Some t.

(** The local time zone of the host: the offset from UTC, in
    milliseconds, in force at a UTC instant, and the offset by which a
    local time value is read back as a UTC instant. *)
Record TimeZone := {
  offset_at_utc : Z -> Z;
  offset_at_local : Z -> Z
}.

Definition LocalTime (tz : TimeZone) (t : Z) : Z := t + offset_at_utc tz t.
Definition UTC (tz : TimeZone) (t : Z) : Z := t - offset_at_local tz t.

(** [d.getDate()]: the day of the month, in local time. *)
Definition getDate (tz : TimeZone) (d : Date) : option Z :=
  match d with
  | Some t => Some (DateFromTime (LocalTime tz t))
  | None => None
  end.

(** [d.setDate(dt)]: the same local year, month and time of day, with the
    day of the month set to [dt] (which may leave the month). *)
Definition setDate (tz : TimeZone) (d : Date) (dt : option Z) : Date :=
  match d, dt with
  | Some t, Some dt =>
      let t := LocalTime tz t in
      let newDate :=
        MakeDate (MakeDay (YearFromTime t) (MonthFromTime t) dt)
                 (TimeWithinDay t) in
      TimeClip (UTC tz newDate)
  | _, _ => None
  end.

Definition digit_char (d : Z) : ascii := ascii_of_nat (48 + Z.to_nat d).

(** The last [w] decimal digits of [n]. *)
Fixpoint pad (w : nat) (n : Z) : string :=
  match w with
  | O => ""
  | S w' => pad w' (n / 10) ++ String (digit_char (n mod 10)) ""
  end.

Definition year_string (y : Z) : string :=
  if (0 <=? y) && (y <=? 9999) then pad 4 y
  else if 0 <=? y then "+" ++ pad 6 y
  else "-" ++ pad 6 (- y).

(** The date part [YYYY-MM-DD] of the ISO rendering, in UTC. *)
Definition iso_date (t : Z) : string :=
  year_string (YearFromTime t) ++ "-" ++ pad 2 (MonthFromTime t + 1)
    ++ "-" ++ pad 2 (DateFromTime t).

Definition iso_time (t : Z) : string :=
  pad 2 (HourFromTime t) ++ ":" ++ pad 2 (MinFromTime t) ++ ":"
    ++ pad 2 (SecFromTime t) ++ "." ++ pad 3 (msFromTime t) ++ "Z".

(** [d.toISOString()]: [None] when the date is invalid, where JavaScript
    throws a [RangeError]. *)
Definition toISOString (d : Date) : option string :=
  match d with
  | Some t => Some (iso_date t ++ "T" ++ iso_time t)
  | None => None
  end.

(** ** Time zones *)

Definition utc_zone : TimeZone :=
  {| offset_at_utc := fun _ => 0; offset_at_local := fun _ => 0 |}.

(** A zone that keeps one offset all year. *)
Definition fixed_zone (off : Z) : TimeZone :=
  {| offset_at_utc := fun _ => off; offset_at_local := fun _ => off |}.

(** Central European time in 2024: UTC+1, and UTC+2 from
    2024-03-31T01:00:00Z to 2024-10-27T01:00:00Z.  A local time inside the
    hour skipped in March is read with the offset before the change, one
    inside the hour repeated in October with the offset before the
    change. *)
Definition cet_2024 : TimeZone :=
  {| offset_at_utc := fun t =>
       if (1711846800000 <=? t) && (t <? 1729990800000)
       then 7200000 else 3600000;
     offset_at_local := fun t =>
       if (1711846800000 + 7200000 <=? t) && (t <? 1729990800000 + 7200000)
       then 7200000 else 3600000 |}.

End ESDate.

(* ================================================================== *)
(** * The Supabase client, as [src/api.ts] uses it

    A query never raises: the client resolves every request to a response
    [{ data, count, error }], and a failure of the store is a response whose
    [error] is set.  Every function of the file is written against this
    contract: it destructures [error] from the awaited value. *)

Module Supabase.

Record User := { id : string }.

Record PostgrestError := {
  message : string;
  details : string;
  hint : string;
  code : string
}.

Inductive Value :=
| VText (s : string)
| VBool (b : bool).

(** The filters the dashboard queries chain on a request. *)
Inductive Filter :=
| eq (column : string) (v : Value)          (* .eq(column, v) *)
| not_is_null (column : string)             (* .not(column, 'is', null) *)
| gte (column : string) (v : Value).        (* .gte(column, v) *)

(** A row to insert: its columns and their values. *)
Definition NewRow := list (string * string).

Inductive Query :=
| select_count (table : string) (filters : list Filter)
    (* .from(table).select('*', { count: 'exact', head: true }) *)
| select_column (table column : string) (filters : list Filter)
    (* .from(table).select(column) *)
| insert (table : string) (row : NewRow).
    (* .from(table).insert(row) *)

(** A row of [messages], with the two columns the dashboard selects:
    [scam_type] is [null] or a string; [created_at] is the instant the
    stored timestamp denotes, which is the time value of
    [new Date(item.created_at)] before clipping. *)
Record MessageRow := {
  scam_type : option string;
  created_at : Z
}.

Record Response := {
  data : option (list MessageRow);
  count : option Z;
  error : option PostgrestError
}.

End Supabase.

(* ================================================================== *)
(** * The functions of [src/api.ts] *)

Module Api.
Import Supabase.

(** What the functions find around them: the signed-in user
    ([supabase.auth.getUser()]), the answers of the store, the system
    clock (its successive readings) and the local time zone. *)
Record Host := {
  current_user : option User;
  respond : Query -> Response;
  clock : nat -> Z;
  zone : ESDate.TimeZone
}.

(** What a call leaves behind. *)
Inductive Event :=
| Queried (q : Query)
| ConsoleError (text : string) (e : PostgrestError).

Record State := {
  clock_reads : nat;
  events : list Event
}.

Definition initial : State := {| clock_reads := 0; events := [] |}.

Inductive Exn :=
| StoreError (e : PostgrestError)   (* [throw error] *)
| RangeError.                       (* an invalid date rendered *)

Inductive Outcome (A : Type) :=
| Returned (a : A)
| Thrown (x : Exn).
Arguments Returned {A} a.
Arguments Thrown {A} x.

Definition M (A : Type) : Type := Host -> State -> Outcome A * State.

Definition ret {A} (a : A) : M A := fun _ s => (Returned a, s).

Definition bind {A B} (m : M A) (k : A -> M B) : M B :=
  fun h s =>
    match m h s with
    | (Returned a, s') => k a h s'
    | (Thrown x, s') => (Thrown x, s')
    end.

Definition throw {A} (x : Exn) : M A := fun _ s => (Thrown x, s).

Definition run {A} (m : M A) (h : Host) : Outcome A * State := m h initial.

Declare Scope api_scope.
Delimit Scope api_scope with api.
Notation "x <- m ;; k" := (bind m (fun x => k))
  (at level 61, m at next level, right associativity) : api_scope.
Local Open Scope api_scope.

Definition record (e : Event) : M unit :=
  fun _ s =>
    (Returned tt,
     {| clock_reads := clock_reads s; events := (events s ++ [e])%list |}).

(** [const { data: { user } } = await supabase.auth.getUser()] *)
Definition getUser : M (option User) :=
  fun h s => (Returned (current_user h), s).

(** [await supabase.from(..)...]: the request is issued and answered. *)
Definition await (q : Query) : M Response :=
  _ <- record (Queried q);;
  fun h s => (Returned (respond h q), s).

(** [await Promise.all([q1, q2, q3, q4])]: the four requests are issued,
    then their answers are collected. *)
Definition Promise_all (q1 q2 q3 q4 : Query)
  : M (Response * Response * Response * Response) :=
  _ <- record (Queried q1);;
  _ <- record (Queried q2);;
  _ <- record (Queried q3);;
  _ <- record (Queried q4);;
  fun h s => (Returned (respond h q1, respond h q2, respond h q3, respond h q4), s).

Definition console_error (text : string) (e : PostgrestError) : M unit :=
  record (ConsoleError text e).

(** [new Date()]: the next reading of the clock. *)
Definition new_Date : M ESDate.Date :=
  fun h s =>
    (Returned (ESDate.TimeClip (clock h (clock_reads s))),
     {| clock_reads := S (clock_reads s); events := events s |}).

(** [new Date(value)] *)
Definition Date_of (t : Z) : ESDate.Date := ESDate.TimeClip t.

Definition local_zone : M ESDate.TimeZone :=
  fun h s => (Returned (zone h), s).

Definition toISOString (d : ESDate.Date) : M string :=
  match ESDate.toISOString d with
  | Some s => ret s
  | None => throw RangeError
  end.

(** [s.split('T')[0]] *)
Definition before_T (s : string) : string := hd "" (JS.split "T" s).

(** [d.setDate(d.getDate() - n)] *)
Definition days_back (tz : ESDate.TimeZone) (d : ESDate.Date) (n : Z)
  : ESDate.Date :=
  ESDate.setDate tz d (option_map (fun today => today - n) (ESDate.getDate tz d)).

(** [o[k] = (o[k] || 0) + 1] *)
Definition bump (o : JS.Obj) (k : string) : JS.Obj :=
  JS.set o k (JS.plus_one (JS.or_zero (JS.get o k))).

(** [data || []] *)
Definition rows_of (data : option (list MessageRow)) : list MessageRow :=
  match data with Some rows => rows | None => [] end.

(** ** System log *)

Definition createLog (log : NewRow) : M unit :=
  r <- await (insert "system_logs" log);;
  match error r with
  | Some e => console_error "Failed to create log:" e
  | None => ret tt
  end.

(** ** Dashboard *)

Record DashboardStats := {
  totalMessages : Z;
  totalScams : Z;
  activeConversations : Z;
  intelligenceExtracted : Z
}.

(** The field [count] of the source is [type_count] here, [count] being the
    field of [DailyDetection]. *)
Record ScamTypeDistribution := {
  type : string;
  type_count : JS.Val
}.

Record DailyDetection := {
  date : string;
  count : JS.Operand
}.

Definition messages_query (user : User) : Query :=
  select_count "messages" [eq "user_id" (VText (id user))].

Definition scams_query (user : User) : Query :=
  select_count "messages"
    [eq "user_id" (VText (id user)); eq "is_scam" (VBool true)].

Definition active_conversations_query (user : User) : Query :=
  select_count "conversations"
    [eq "user_id" (VText (id user)); eq "status" (VText "active")].

Definition intelligence_query (user : User) : Query :=
  select_count "intelligence" [eq "user_id" (VText (id user))].

Definition getStats : M DashboardStats :=
  user <- getUser;;
  match user with
  | None =>
      ret {| totalMessages := 0; totalScams := 0;
             activeConversations := 0; intelligenceExtracted := 0 |}
  | Some user =>
      r <- Promise_all (messages_query user) (scams_query user)
             (active_conversations_query user) (intelligence_query user);;
      let '(messagesCount, scamsCount, activeConvCount, intelCount) := r in
      ret {| totalMessages := JS.count_or_zero (Supabase.count messagesCount);
             totalScams := JS.count_or_zero (Supabase.count scamsCount);
             activeConversations := JS.count_or_zero (Supabase.count activeConvCount);
             intelligenceExtracted := JS.count_or_zero (Supabase.count intelCount) |}
  end.

Definition scam_type_query (user : User) : Query :=
  select_column "messages" "scam_type"
    [eq "user_id" (VText (id user)); eq "is_scam" (VBool true);
     not_is_null "scam_type"].

(** [if (item.scam_type)]: [null] and the empty string are falsy. *)
Definition truthy (label : option string) : bool :=
  match label with
  | Some s => negb (String.eqb s "")
  | None => false
  end.

(** A label used as a property key: [distribution[item.scam_type]]. *)
Definition property_key (label : option string) : string :=
  match label with
  | Some s => s
  | None => "null"
  end.

(** The body of the [forEach] of [getScamTypeDistribution]. *)
Definition count_scam_type (distribution : JS.Obj) (item : MessageRow) : JS.Obj :=
  if truthy (scam_type item)
  then bump distribution (property_key (scam_type item))
  else distribution.

Definition tally_scam_types (rows : list MessageRow) : JS.Obj :=
  fold_left count_scam_type rows JS.empty.

Definition getScamTypeDistribution : M (list ScamTypeDistribution) :=
  user <- getUser;;
  match user with
  | None => ret []
  | Some user =>
      r <- await (scam_type_query user);;
      match error r with
      | Some e => throw (StoreError e)
      | None =>
          let distribution := tally_scam_types (rows_of (data r)) in
          ret (map (fun e => {| type := fst e; type_count := snd e |})
                   (JS.entries distribution))
      end
  end.

Definition daily_query (user : User) (cutoff : string) : Query :=
  select_column "messages" "created_at"
    [eq "user_id" (VText (id user)); eq "is_scam" (VBool true);
     gte "created_at" (VText cutoff)].

(** The [forEach] of [getDailyDetections]: each row is dated (which
    throws on an invalid date) and counted under its date. *)
Fixpoint tally_dates (rows : list MessageRow) (detectionsByDate : JS.Obj)
  : M JS.Obj :=
  match rows with
  | [] => ret detectionsByDate
  | item :: rows' =>
      iso <- toISOString (Date_of (created_at item));;
      let date := before_T iso in
      tally_dates rows' (bump detectionsByDate date)
  end.

(** [for (let i = days - 1; i >= 0; i--)], with [n] iterations left, so
    that [i = n - 1]. *)
Fixpoint fill_buckets (n : nat) (detectionsByDate : JS.Obj)
         (result : list DailyDetection) : M (list DailyDetection) :=
  match n with
  | O => ret result
  | S i =>
      now <- new_Date;;
      tz <- local_zone;;
      iso <- toISOString (days_back tz now (Z.of_nat i));;
      let dateStr := before_T iso in
      fill_buckets i detectionsByDate
        (result ++ [ {| date := dateStr;
                        count := JS.or_zero (JS.get detectionsByDate dateStr) |} ])%list
  end.

(** [days] is the integer the caller passes ([7] when it passes none). *)
Definition getDailyDetections (days : Z) : M (list DailyDetection) :=
  user <- getUser;;
  match user with
  | None => ret []
  | Some user =>
      now <- new_Date;;
      tz <- local_zone;;
      let startDate := days_back tz now days in
      cutoff <- toISOString startDate;;
      r <- await (daily_query user cutoff);;
      match error r with
      | Some e => throw (StoreError e)
      | None =>
          detectionsByDate <- tally_dates (rows_of (data r)) JS.empty;;
          fill_buckets (Z.to_nat days) detectionsByDate []
      end
  end.

Definition default_days : Z := 7.

End Api.

(* ================================================================== *)
(** * What the dashboard functions are expected to compute *)

Module Expected.
Import Supabase Api.

(** The distinct elements of a list, each at the place of its first
    occurrence. *)
Fixpoint first_occurrences (l : list string) : list string :=
  match l with
  | [] => []
  | x :: r => x :: filter (fun y => negb (String.eqb y x)) (first_occurrences r)
  end.

Definition occurrences (x : string) (l : list string) : Z :=
  Z.of_nat (count_occ string_dec l x).

(** The labels that [getScamTypeDistribution] counts: those of the rows
    that pass [if (item.scam_type)]. *)
Definition counted_labels (rows : list MessageRow) : list string :=
  map (fun r => property_key (scam_type r))
      (filter (fun r => truthy (scam_type r)) rows).

(** One pair per distinct label, in the order of first occurrence, with
    the number of its occurrences. *)
Definition by_first_occurrence (labels : list string) : list ScamTypeDistribution :=
  map (fun l => {| type := l; type_count := JS.Num (occurrences l labels) |})
      (first_occurrences labels).

(** A label that is neither an array index nor a name that an object
    literal inherits. *)
Definition plain (k : string) : bool :=
  negb (JS.is_array_index k) && negb (JS.inherited k).

(** Every row the store handed over during a call. *)
Definition retrieved (h : Host) (st : State) : list MessageRow :=
  flat_map (fun ev => match ev with
                      | Queried q => rows_of (data (respond h q))
                      | ConsoleError _ _ => []
                      end) (events st).

Definition queries (st : State) : list Query :=
  flat_map (fun ev => match ev with
                      | Queried q => [q]
                      | ConsoleError _ _ => []
                      end) (events st).

(** The UTC calendar date of a row and of a day number. *)
Definition utc_date (r : MessageRow) : string := ESDate.iso_date (created_at r).
Definition date_of_day (d : Z) : string := ESDate.iso_date (d * ESDate.msPerDay).

(** The dates from [today - (days - 1)] to [today], ascending. *)
Fixpoint trailing_days (today : Z) (n : nat) : list Z :=
  match n with
  | O => []
  | S i => (today - Z.of_nat i) :: trailing_days today i
  end.

Definition number (c : JS.Operand) : Z :=
  match c with
  | JS.Prim (JS.Num n) => n
  | _ => 0
  end.

Definition sum_counts (buckets : list DailyDetection) : Z :=
  fold_right (fun b acc => number (count b) + acc) 0 buckets.

Definition dated_in (dates : list string) (r : MessageRow) : bool :=
  existsb (String.eqb (utc_date r)) dates.

(** The instant [startDate] of [getDailyDetections] ends up at. *)
Definition cutoff (h : Host) (days : Z) : ESDate.Date :=
  days_back (zone h) (ESDate.TimeClip (clock h 0)) days.

Definition on_or_after (d : ESDate.Date) (r : MessageRow) : bool :=
  match d with
  | Some t => t <=? created_at r
  | None => false
  end.

(** A call issued the request [q]. *)
Definition issued {A} (r : Outcome A * State) (q : Query) : Prop :=
  In q (queries (snd r)).

(** A call ended by throwing [x], having issued exactly the requests
    [qs]. *)
Definition threw {A} (r : Outcome A * State) (x : Exn) (qs : list Query) : Prop :=
  fst r = Thrown x /\ queries (snd r) = qs.

(** The counts of the buckets add up to the number of retrieved rows that
    are not older than the cutoff. *)
Definition sums_to_retrieved (h : Host) (days : Z) : Prop :=
  forall buckets st,
    run (getDailyDetections days) h = (Returned buckets, st) ->
    sum_counts buckets =
    Z.of_nat (List.length (filter (on_or_after (cutoff h days)) (retrieved h st))).

(** One bucket per UTC date from [today - (days - 1)] to [today]. *)
Definition expected_dates (h : Host) (days : Z) : list string :=
  map date_of_day (trailing_days (ESDate.Day (clock h 0)) (Z.to_nat days)).

(** ** Hosts to evaluate the functions on *)

Definition alice : User := {| id := "7c9e6679" |}.

Definition rows (l : list MessageRow) : Response :=
  {| data := Some l; Supabase.count := None; error := None |}.

Definition counted (n : Z) : Response :=
  {| data := None; Supabase.count := Some n; error := None |}.

Definition timeout_error : PostgrestError :=
  {| message := "canceling statement due to statement timeout";
     details := ""; hint := ""; code := "57014" |}.

Definition failed (e : PostgrestError) : Response :=
  {| data := None; Supabase.count := None; error := Some e |}.

Definition labelled (l : string) : MessageRow :=
  {| scam_type := Some l; created_at := 1711800000000 |}.

Definition at_instant (t : Z) : MessageRow :=
  {| scam_type := None; created_at := t |}.

(** 2024-03-31T12:00:00Z and 2024-03-31T23:30:00Z *)
Definition noon : Z := 1711886400000.
Definition late_evening : Z := 1711927800000.

Definition host (user : option User) (answer : Query -> Response)
           (now : Z) (tz : ESDate.TimeZone) : Host :=
  {| current_user := user; respond := answer;
     clock := fun _ => now; zone := tz |}.

Definition signed_out : Host :=
  host None (fun _ => failed timeout_error) noon ESDate.utc_zone.

(** Every request fails. *)
Definition store_down : Host :=
  host (Some alice) (fun _ => failed timeout_error) noon ESDate.utc_zone.

Definition query_eqb_messages_total (q : Query) : bool :=
  match q with
  | select_count "messages" [eq "user_id" _] => true
  | _ => false
  end.

(** The count of all messages fails, the three other counts succeed. *)
Definition one_count_fails : Host :=
  host (Some alice)
       (fun q => if query_eqb_messages_total q then failed timeout_error
                 else counted 5)
       noon ESDate.utc_zone.

Definition counts_host : Host :=
  host (Some alice)
       (fun q => match q with
                 | select_count "messages" [_] => counted 12
                 | select_count "messages" _ => counted 5
                 | select_count "conversations" _ => counted 0
                 | _ => {| data := None; Supabase.count := None; error := None |}
                 end)
       noon ESDate.utc_zone.

Definition labels_host (l : list string) : Host :=
  host (Some alice) (fun _ => rows (map labelled l)) noon ESDate.utc_zone.

Definition rows_host (l : list MessageRow) : Host :=
  host (Some alice) (fun _ => rows l) noon ESDate.utc_zone.

(** A browser on Central European time at 2024-04-01 01:30 local time,
    the night after the clocks went forward; one detection now and one
    48 hours ago. *)
Definition berlin_host : Host :=
  host (Some alice)
       (fun _ => rows [at_instant late_evening;
                       at_instant (late_evening - 2 * ESDate.msPerDay)])
       late_evening ESDate.cet_2024.

(** The same instant and the same rows on a host that runs in UTC. *)
Definition utc_host : Host :=
  host (Some alice)
       (fun _ => rows [at_instant late_evening;
                       at_instant (late_evening - 2 * ESDate.msPerDay)])
       late_evening ESDate.utc_zone.

(** One detection yesterday at 18:00 UTC, the clock at noon today. *)
Definition yesterday_evening_host : Host :=
  rows_host [at_instant (noon - 18 * ESDate.msPerHour)].

End Expected.

(* ================================================================== *)
(** * The two counters of [conversationApi] and [intelligenceApi] *)

Module Counts.
Import Supabase Api.
Local Open Scope api_scope.

Definition getActiveConversationsCount : M Z :=
  user <- getUser;;
  match user with
  | None => ret 0
  | Some user =>
      r <- await (select_count "conversations"
                    [eq "user_id" (VText (id user));
                     eq "status" (VText "active")]);;
      match error r with
      | Some e => throw (StoreError e)
      | None => ret (JS.count_or_zero (Supabase.count r))
      end
  end.

Definition getIntelligenceCount : M Z :=
  user <- getUser;;
  match user with
  | None => ret 0
  | Some user =>
      r <- await (select_count "intelligence"
                    [eq "user_id" (VText (id user))]);;
      match error r with
      | Some e => throw (StoreError e)
      | None => ret (JS.count_or_zero (Supabase.count r))
      end
  end.

End Counts.

(* ================================================================== *)
(** * The record wrappers of [src/api.ts]

    The functions that read, insert, update and delete records.  Their
    requests carry an ordering, a limit and a cardinality, and their
    answers carry records, so they have a request and an answer type of
    their own; the outcome of a call is as in [Api]. *)

Module Crud.
Import Supabase.

(** A value of a column. *)
Inductive Field :=
| FText (s : string)
| FNum (n : Z)
| FBool (b : bool)
| FNull.

(** A plain object: its own enumerable properties, in property order. *)
Definition Row := list (string * Field).

Fixpoint lookup (r : Row) (k : string) : option Field :=
  match r with
  | [] => None
  | (k', v) :: r' => if String.eqb k' k then Some v else lookup r' k
  end.

(** [{ ...r, k: v }] for a key [k] that is no array index: the properties
    of [r] are copied in order, then [k] is defined; a property [k] of [r]
    keeps its place and takes the value [v]. *)
Fixpoint spread_with (r : Row) (k : string) (v : Field) : Row :=
  match r with
  | [] => [(k, v)]
  | (k', v') :: r' =>
      if String.eqb k' k then (k', v) :: r' else (k', v') :: spread_with r' k v
  end.

Inductive Cardinality :=
| many           (* the rows *)
| maybeSingle    (* .maybeSingle() *)
| single.        (* .single() *)

Inductive Request :=
| select (table columns : string) (filters : list Filter)
         (order : option (string * bool))   (* .order(column, { ascending }) *)
         (limit : option Z)                 (* .limit(n) *)
         (cardinality : Cardinality)
| insert_returning (table : string) (row : Row)
    (* .from(table).insert(row).select().single() *)
| update (table : string) (row : Row) (filters : list Filter)
| delete (table : string) (filters : list Filter)
| rpc (fn : string) (args : Row).

(** The [data] of an answer: [null], one record or an array of records. *)
Inductive Data :=
| null
| object (r : Row)
| array (rs : list Row).

Record Reply := {
  data : Data;
  error : option PostgrestError
}.

Record Backend := {
  session : option User;            (* supabase.auth.getUser() *)
  answer : Request -> Reply;
  time : nat -> Z                   (* the readings of the clock *)
}.

Record Log := {
  reads : nat;
  sent : list Request
}.

Definition start : Log := {| reads := 0; sent := [] |}.

Definition C (A : Type) : Type := Backend -> Log -> Api.Outcome A * Log.

Definition ret {A} (a : A) : C A := fun _ l => (Api.Returned a, l).

Definition bind {A B} (m : C A) (k : A -> C B) : C B :=
  fun b l =>
    match m b l with
    | (Api.Returned a, l') => k a b l'
    | (Api.Thrown x, l') => (Api.Thrown x, l')
    end.

Definition throw {A} (x : Api.Exn) : C A := fun _ l => (Api.Thrown x, l).

Definition run {A} (m : C A) (b : Backend) : Api.Outcome A * Log := m b start.

Declare Scope crud_scope.
Delimit Scope crud_scope with crud.
Notation "x <- m ;; k" := (bind m (fun x => k))
  (at level 61, m at next level, right associativity) : crud_scope.
Local Open Scope crud_scope.

Definition getUser : C (option User) :=
  fun b l => (Api.Returned (session b), l).

Definition await (q : Request) : C Reply :=
  fun b l =>
    (Api.Returned (answer b q),
     {| reads := reads l; sent := (sent l ++ [q])%list |}).

(** [new Date().toISOString()] *)
Definition now_iso : C string :=
  fun b l =>
    match ESDate.toISOString (ESDate.TimeClip (time b (reads l))) with
    | Some s => (Api.Returned s, {| reads := S (reads l); sent := sent l |})
    | None => (Api.Thrown Api.RangeError, {| reads := S (reads l); sent := sent l |})
    end.

(** [if (error) throw error; return data;] *)
Definition data_or_throw (r : Reply) : C Data :=
  match error r with
  | Some e => throw (Api.StoreError e)
  | None => ret (data r)
  end.

(** [if (error) throw error; return Array.isArray(data) ? data : [];] *)
Definition rows_or_throw (r : Reply) : C (list Row) :=
  match error r with
  | Some e => throw (Api.StoreError e)
  | None => ret (match data r with array rs => rs | _ => [] end)
  end.

(** [if (error) throw error;] *)
Definition done_or_throw (r : Reply) : C unit :=
  match error r with
  | Some e => throw (Api.StoreError e)
  | None => ret tt
  end.

(** A parameter with a default value: [limit = 50]. *)
Definition or_default (d : Z) (x : option Z) : Z :=
  match x with Some n => n | None => d end.

Definition newest_first : option (string * bool) := Some ("created_at", false).

Module profileApi.

Definition getCurrentProfile : C Data :=
  user <- getUser;;
  match user with
  | None => ret null
  | Some user =>
      r <- await (select "profiles" "*" [eq "id" (VText (id user))]
                         None None maybeSingle);;
      data_or_throw r
  end.

Definition getAllProfiles : C (list Row) :=
  r <- await (select "profiles" "*" [] newest_first None many);;
  rows_or_throw r.

Definition updateProfile (id : string) (updates : Row) : C unit :=
  r <- await (update "profiles" updates [eq "id" (VText id)]);;
  done_or_throw r.

End profileApi.

Module messageApi.

Definition createMessage (message : Row) : C Data :=
  r <- await (insert_returning "messages" message);;
  data_or_throw r.

Definition getMessages (limit : option Z) : C (list Row) :=
  let limit := or_default 50 limit in
  user <- getUser;;
  match user with
  | None => ret []
  | Some user =>
      r <- await (select "messages" "*" [eq "user_id" (VText (id user))]
                         newest_first (Some limit) many);;
      rows_or_throw r
  end.

Definition getRecentScams (limit : option Z) : C (list Row) :=
  let limit := or_default 10 limit in
  user <- getUser;;
  match user with
  | None => ret []
  | Some user =>
      r <- await (select "messages" "*"
                         [eq "user_id" (VText (id user)); eq "is_scam" (VBool true)]
                         newest_first (Some limit) many);;
      rows_or_throw r
  end.

Definition deleteMessage (id : string) : C unit :=
  r <- await (delete "messages" [eq "id" (VText id)]);;
  done_or_throw r.

End messageApi.

Module personaApi.

Definition getPersonas : C (list Row) :=
  user <- getUser;;
  match user with
  | None => ret []
  | Some user =>
      r <- await (select "personas" "*" [eq "user_id" (VText (id user))]
                         newest_first None many);;
      rows_or_throw r
  end.

Definition createPersona (persona : Row) : C Data :=
  r <- await (insert_returning "personas" persona);;
  data_or_throw r.

Definition updatePersona (id : string) (updates : Row) : C unit :=
  r <- await (update "personas" updates [eq "id" (VText id)]);;
  done_or_throw r.

Definition deletePersona (id : string) : C unit :=
  r <- await (delete "personas" [eq "id" (VText id)]);;
  done_or_throw r.

Definition ensureDefaultPersonas (userId : string) : C unit :=
  r <- await (rpc "ensure_default_personas" [("p_user_id", FText userId)]);;
  done_or_throw r.

End personaApi.

Module conversationApi.

Definition getConversations (limit : option Z) : C (list Row) :=
  let limit := or_default 50 limit in
  user <- getUser;;
  match user with
  | None => ret []
  | Some user =>
      r <- await (select "conversations" "*, persona:personas(*)"
                         [eq "user_id" (VText (id user))]
                         newest_first (Some limit) many);;
      rows_or_throw r
  end.

Definition getConversation (id : string) : C Data :=
  r <- await (select "conversations" "*, persona:personas(*)"
                     [eq "id" (VText id)] None None maybeSingle);;
  data_or_throw r.

Definition createConversation (conversation : Row) : C Data :=
  r <- await (insert_returning "conversations" conversation);;
  data_or_throw r.

Definition updateConversation (id : string) (updates : Row) : C unit :=
  stamp <- now_iso;;
  r <- await (update "conversations"
                     (spread_with updates "updated_at" (FText stamp))
                     [eq "id" (VText id)]);;
  done_or_throw r.

Definition deleteConversation (id : string) : C unit :=
  r <- await (delete "conversations" [eq "id" (VText id)]);;
  done_or_throw r.

End conversationApi.

Module conversationMessageApi.

Definition getMessages (conversationId : string) : C (list Row) :=
  r <- await (select "conversation_messages" "*"
                     [eq "conversation_id" (VText conversationId)]
                     (Some ("timestamp", true)) None many);;
  rows_or_throw r.

Definition addMessage (message : Row) : C Data :=
  r <- await (insert_returning "conversation_messages" message);;
  data_or_throw r.

End conversationMessageApi.

Module intelligenceApi.

Definition getIntelligence (limit : option Z) : C (list Row) :=
  let limit := or_default 100 limit in
  user <- getUser;;
  match user with
  | None => ret []
  | Some user =>
      r <- await (select "intelligence" "*" [eq "user_id" (VText (id user))]
                         newest_first (Some limit) many);;
      rows_or_throw r
  end.

Definition createIntelligence (intelligence : Row) : C Data :=
  r <- await (insert_returning "intelligence" intelligence);;
  data_or_throw r.

Definition deleteIntelligence (id : string) : C unit :=
  r <- await (delete "intelligence" [eq "id" (VText id)]);;
  done_or_throw r.

Definition getRecentIntelligence (limit : option Z) : C (list Row) :=
  let limit := or_default 5 limit in
  user <- getUser;;
  match user with
  | None => ret []
  | Some user =>
      r <- await (select "intelligence" "*" [eq "user_id" (VText (id user))]
                         newest_first (Some limit) many);;
      rows_or_throw r
  end.

End intelligenceApi.

Module systemLogApi.

Definition getLogs (limit : option Z) : C (list Row) :=
  let limit := or_default 100 limit in
  r <- await (select "system_logs" "*" [] newest_first (Some limit) many);;
  rows_or_throw r.

End systemLogApi.

(** ** What the wrappers are expected to do *)

(** A request of the call that the store answers with an error makes the
    call throw that error; it is the only request sent. *)
Definition propagates {A} (m : C A) : Prop :=
  forall (b : Backend) (q : Request) (e : PostgrestError),
    In q (sent (snd (run m b))) ->
    error (answer b q) = Some e ->
    fst (run m b) = Api.Thrown (Api.StoreError e) /\ sent (snd (run m b)) = [q].

(** With no signed-in user the call returns [empty]; it sends nothing and
    reads no clock. *)
Definition guarded {A} (m : C A) (empty : A) : Prop :=
  forall b : Backend, session b = None -> run m b = (Api.Returned empty, start).

(** The call does the same whoever is signed in, and sends exactly the
    request [q]. *)
Definition unguarded {A} (m : C A) (q : Request) : Prop :=
  forall b : Backend,
    sent (snd (run m b)) = [q]
    /\ forall b' : Backend,
         answer b' = answer b -> time b' = time b -> run m b' = run m b.

(** When the request of the call succeeds, the call returns the rows of
    the answer, and the empty array when the answer holds no array. *)
Definition returns_rows (m : C (list Row)) : Prop :=
  forall (b : Backend) (q : Request),
    In q (sent (snd (run m b))) ->
    error (answer b q) = None ->
    fst (run m b) =
    Api.Returned (match data (answer b q) with array rs => rs | _ => [] end).

(** When the request of the call succeeds, the call returns the [data] of
    the answer as it is, [null] included. *)
Definition returns_data (m : C Data) : Prop :=
  forall (b : Backend) (q : Request),
    In q (sent (snd (run m b))) ->
    error (answer b q) = None ->
    fst (run m b) = Api.Returned (data (answer b q)).

(** ** Backends to evaluate the wrappers on *)

Definition no_such_table : PostgrestError :=
  {| message := "relation does not exist"; details := ""; hint := "";
     code := "42P01" |}.

Definition backend (user : option User) (reply : Request -> Reply) (now : Z)
  : Backend :=
  {| session := user; answer := reply; time := fun _ => now |}.

Definition bob : User := {| id := "3f2a9c10" |}.

Definition empty_store : Backend :=
  backend (Some bob) (fun _ => {| data := array []; error := None |})
          1711886400000.

Definition broken_store : Backend :=
  backend (Some bob) (fun _ => {| data := null; error := Some no_such_table |})
          1711886400000.

(** The store finds no record: [data] is [null] and there is no error. *)
Definition nothing_found : Backend :=
  backend (Some bob) (fun _ => {| data := null; error := None |})
          1711886400000.

Definition anonymous : Backend :=
  backend None (fun _ => {| data := null; error := Some no_such_table |})
          1711886400000.

End Crud.

(* ================================================================== *)
(** * More of what the aggregations are expected to compute *)

Module ExpectedMore.
Import Supabase Api Expected.

(** The sum of the counts of a distribution (a count that is no number
    adds nothing). *)
Definition total (l : list ScamTypeDistribution) : Z :=
  fold_right (fun b acc => match type_count b with
                           | JS.Num n => n + acc
                           | JS.Text => acc
                           end) 0 l.

(** The labels that are array indices, with their index. *)
Definition indexed (k : Z * string) : Prop :=
  JS.array_index (snd k) = Some (fst k).

(** A host of a fixed zone whose clock stands still. *)
Definition still_host (user : option User) (answer : Query -> Response)
           (now off : Z) : Host :=
  host user answer now (ESDate.fixed_zone off).

End ExpectedMore.

(* ================================================================== *)
(** * Properties *)

Import Supabase Api Expected.
Local Open Scope api_scope.

(** Unfolds the plumbing of [M], leaving the calls of the source visible. *)
Ltac effects :=
  cbv beta iota zeta delta
    [run bind ret throw getUser await Promise_all record console_error
     new_Date local_zone initial].

(** ** No identified caller *)

(** C5: with no identified caller, [getStats] returns the stats record of
    four zeros; it raises nothing, issues no request and reads no clock. *)
Theorem getStats_no_caller :
  forall h : Host,
    current_user h = None ->
    run getStats h =
    (Returned {| totalMessages := 0; totalScams := 0;
                 activeConversations := 0; intelligenceExtracted := 0 |},
     initial).
Proof.
  intros h Hnone.
  unfold run, getStats, bind, getUser.
  rewrite Hnone. reflexivity.
Qed.

Lemma getStats_no_caller_witness :
  run getStats signed_out =
  (Returned {| totalMessages := 0; totalScams := 0;
               activeConversations := 0; intelligenceExtracted := 0 |},
   initial).
Proof.
  apply (getStats_no_caller signed_out). reflexivity.
Defined.

(** C10: with no identified caller, [getDailyDetections days] returns the
    empty array whatever [days] is; it raises nothing, issues no request
    and reads no clock. *)
Theorem getDailyDetections_no_caller :
  forall (h : Host) (days : Z),
    current_user h = None ->
    run (getDailyDetections days) h = (Returned [], initial)
    /\ (forall buckets st,
          run (getDailyDetections days) h = (Returned buckets, st) ->
          List.length buckets = 0%nat /\ queries st = []).
Proof.
  intros h days Hnone.
  assert (E : run (getDailyDetections days) h = (Returned [], initial)).
  { unfold run, getDailyDetections, bind, getUser.
    rewrite Hnone. reflexivity. }
  split; [exact E|].
  intros buckets st Hrun. rewrite E in Hrun.
  inversion Hrun; subst. split; reflexivity.
Qed.

Lemma getDailyDetections_no_caller_witness :
  run (getDailyDetections 7) signed_out = (Returned [], initial)
  /\ (forall buckets st,
        run (getDailyDetections 7) signed_out = (Returned buckets, st) ->
        List.length buckets = 0%nat /\ queries st = []).
Proof.
  apply (getDailyDetections_no_caller signed_out 7). reflexivity.
Defined.

(** ** System log *)

(** C8: [createLog] returns normally on every log record and every answer
    of the store; when the insert fails, the failure is written to the
    console and nothing is thrown. *)
Theorem createLog_swallows_failure :
  forall (h : Host) (log : NewRow),
    run (createLog log) h =
    (Returned tt,
     {| clock_reads := 0;
        events :=
          Queried (insert "system_logs" log)
          :: match error (respond h (insert "system_logs" log)) with
             | Some e => [ConsoleError "Failed to create log:" e]
             | None => []
             end |}).
Proof.
  intros h log.
  unfold run, createLog, await, bind, record, console_error, ret; simpl.
  destruct (error (respond h (insert "system_logs" log))); reflexivity.
Qed.

(** ** [getStats] *)

(** Whatever the four answers are, [getStats] returns a stats record built
    from their [count] fields; the [error] fields are never read. *)
Lemma getStats_identified :
  forall (h : Host) (user : User),
    current_user h = Some user ->
    run getStats h =
    (Returned
       {| totalMessages :=
            JS.count_or_zero (Supabase.count (respond h (messages_query user)));
          totalScams :=
            JS.count_or_zero (Supabase.count (respond h (scams_query user)));
          activeConversations :=
            JS.count_or_zero
              (Supabase.count (respond h (active_conversations_query user)));
          intelligenceExtracted :=
            JS.count_or_zero
              (Supabase.count (respond h (intelligence_query user))) |},
     {| clock_reads := 0;
        events := [Queried (messages_query user); Queried (scams_query user);
                   Queried (active_conversations_query user);
                   Queried (intelligence_query user)] |}).
Proof.
  intros h user Huser.
  unfold run, getStats, bind, getUser.
  rewrite Huser. reflexivity.
Qed.

Lemma count_or_zero_default :
  forall c : option Z,
    JS.count_or_zero c = match c with Some n => n | None => 0 end.
Proof.
  intros [n|]; simpl; [|reflexivity].
  destruct (Z.eqb_spec n 0); congruence.
Qed.

(** C6: with an identified caller and four count queries that succeed, the
    result is the record of the four counts the store returned for the
    caller's messages, scam messages, active conversations and intelligence
    entries, a count the store leaves out being read as 0. *)
Theorem getStats_counts :
  forall (h : Host) (user : User),
    current_user h = Some user ->
    error (respond h (messages_query user)) = None ->
    error (respond h (scams_query user)) = None ->
    error (respond h (active_conversations_query user)) = None ->
    error (respond h (intelligence_query user)) = None ->
    let default c := match c with Some n => n | None => 0 end in
    run getStats h =
    (Returned
       {| totalMessages :=
            default (Supabase.count (respond h (messages_query user)));
          totalScams :=
            default (Supabase.count (respond h (scams_query user)));
          activeConversations :=
            default (Supabase.count (respond h (active_conversations_query user)));
          intelligenceExtracted :=
            default (Supabase.count (respond h (intelligence_query user))) |},
     {| clock_reads := 0;
        events := [Queried (messages_query user); Queried (scams_query user);
                   Queried (active_conversations_query user);
                   Queried (intelligence_query user)] |})
    /\ messages_query user =
       select_count "messages" [eq "user_id" (VText (id user))]
    /\ scams_query user =
       select_count "messages"
         [eq "user_id" (VText (id user)); eq "is_scam" (VBool true)]
    /\ active_conversations_query user =
       select_count "conversations"
         [eq "user_id" (VText (id user)); eq "status" (VText "active")]
    /\ intelligence_query user =
       select_count "intelligence" [eq "user_id" (VText (id user))].
Proof.
  intros h user Huser _ _ _ _ default.
  rewrite (getStats_identified h user Huser).
  rewrite !count_or_zero_default.
  repeat split.
Qed.

Lemma getStats_counts_witness :
  run getStats counts_host =
  (Returned {| totalMessages := 12; totalScams := 5;
               activeConversations := 0; intelligenceExtracted := 0 |},
   {| clock_reads := 0;
      events := [Queried (messages_query alice); Queried (scams_query alice);
                 Queried (active_conversations_query alice);
                 Queried (intelligence_query alice)] |}).
Proof.
  exact (proj1 (getStats_counts counts_host alice
                  eq_refl eq_refl eq_refl eq_refl eq_refl)).
Defined.

(** C2: on a host where the count of all messages fails with a store error
    and the three other counts succeed, [getStats] throws nothing: it
    returns a stats record whose [totalMessages] is 0. *)
Theorem getStats_one_count_fails :
  error (respond one_count_fails (messages_query alice)) = Some timeout_error
  /\ run getStats one_count_fails =
     (Returned {| totalMessages := 0; totalScams := 5;
                  activeConversations := 5; intelligenceExtracted := 5 |},
      {| clock_reads := 0;
         events := [Queried (messages_query alice); Queried (scams_query alice);
                    Queried (active_conversations_query alice);
                    Queried (intelligence_query alice)] |}).
Proof.
  split; reflexivity.
Qed.

(** ** Store failures in the two aggregations *)

Lemma toISOString_state :
  forall (d : ESDate.Date) (h : Host) (s : State) out s',
    toISOString d h s = (out, s') -> s' = s.
Proof.
  intros d h s out s'. unfold toISOString.
  destruct (ESDate.toISOString d); unfold ret, throw; congruence.
Qed.

(** Dating the rows issues no request and reads no clock. *)
Lemma tally_dates_state :
  forall (l : list MessageRow) (o : JS.Obj) (h : Host) (s : State) out s',
    tally_dates l o h s = (out, s') -> s' = s.
Proof.
  induction l as [|item l IH]; intros o h s out s'; simpl.
  - unfold ret. congruence.
  - unfold bind. destruct (toISOString _ h s) as [[iso|x] s1] eqn:E;
      apply toISOString_state in E; subst s1.
    + apply IH.
    + congruence.
Qed.

(** Filling the buckets issues no request. *)
Lemma fill_buckets_events :
  forall (n : nat) (o : JS.Obj) (res : list DailyDetection)
         (h : Host) (s : State) out s',
    fill_buckets n o res h s = (out, s') -> events s' = events s.
Proof.
  induction n as [|i IH]; intros o res h s out s'; simpl.
  - unfold ret. intros E; inversion E; reflexivity.
  - unfold bind, new_Date, local_zone.
    destruct (toISOString _ h _) as [[iso|x] s1] eqn:E;
      apply toISOString_state in E; subst s1.
    + intros E. apply IH in E. exact E.
    + intros E; inversion E; reflexivity.
Qed.

(** C7: with an identified caller, a request of [getScamTypeDistribution]
    or of [getDailyDetections days] that the store answers with an error
    makes the call throw that very error; the failed request is the only
    one issued (no retry) and no array is returned.
    [getScamTypeDistribution] always issues its request. *)
Theorem query_failure_is_thrown :
  forall (h : Host) (user : User) (e : PostgrestError) (q : Query) (days : Z),
    current_user h = Some user ->
    error (respond h q) = Some e ->
    issued (run getScamTypeDistribution h) (scam_type_query user)
    /\ (issued (run getScamTypeDistribution h) q ->
        threw (run getScamTypeDistribution h) (StoreError e) [q])
    /\ (issued (run (getDailyDetections days) h) q ->
        threw (run (getDailyDetections days) h) (StoreError e) [q]).
Proof.
  intros h user e q days Huser Herr.
  unfold issued, threw, queries.
  split; [|split].
  - unfold getScamTypeDistribution. effects. rewrite Huser.
    destruct (error (respond h (scam_type_query user)));
      simpl; left; reflexivity.
  - unfold getScamTypeDistribution. effects. rewrite Huser.
    destruct (error (respond h (scam_type_query user))) as [e0|] eqn:E0;
      simpl; intros [<-|[]]; split; congruence.
  - unfold getDailyDetections. effects. rewrite Huser.
    destruct (toISOString _ h _) as [[iso|x] s1] eqn:E;
      apply toISOString_state in E; subst s1; [|intros []].
    destruct (error (respond h (daily_query user iso))) as [e0|] eqn:E0.
    + simpl. intros [<-|[]]. split; congruence.
    + destruct (tally_dates _ _ h _) as [[o|x] s1] eqn:E1;
        apply tally_dates_state in E1; subst s1.
      * destruct (fill_buckets _ _ _ h _) as [out s2] eqn:E2.
        apply fill_buckets_events in E2.
        simpl. rewrite E2. simpl. intros [<-|[]]. congruence.
      * simpl. intros [<-|[]]. congruence.
Qed.

Lemma query_failure_is_thrown_witness :
  threw (run getScamTypeDistribution store_down) (StoreError timeout_error)
        [scam_type_query alice]
  /\ threw (run (getDailyDetections 7) store_down) (StoreError timeout_error)
           [daily_query alice "2024-03-24T12:00:00.000Z"].
Proof.
  split.
  - apply (query_failure_is_thrown store_down alice timeout_error
             (scam_type_query alice) 7 eq_refl eq_refl).
    vm_compute. left. reflexivity.
  - apply (query_failure_is_thrown store_down alice timeout_error
             (daily_query alice "2024-03-24T12:00:00.000Z") 7 eq_refl eq_refl).
    vm_compute. left. reflexivity.
Defined.

(** ** [getScamTypeDistribution]: which rows are counted *)

Section Tally.

(** The [forEach] only looks at the rows whose label is truthy. *)
Lemma tally_from :
  forall (l : list MessageRow) (o : JS.Obj),
    fold_left count_scam_type l o = fold_left bump (counted_labels l) o.
Proof.
  induction l as [|r l IH]; intros o; [reflexivity|].
  unfold counted_labels in *; simpl. unfold count_scam_type at 2.
  destruct (truthy (scam_type r)); simpl; apply IH.
Qed.

Lemma tally_counted_labels :
  forall l : list MessageRow,
    tally_scam_types l = fold_left bump (counted_labels l) JS.empty.
Proof. intros l. apply tally_from. Qed.

Lemma counted_labels_kept :
  forall l : list MessageRow,
    counted_labels (filter (fun r => truthy (scam_type r)) l) = counted_labels l.
Proof.
  intros l. unfold counted_labels. f_equal.
  induction l as [|r l IH]; [reflexivity|]; simpl.
  destruct (truthy (scam_type r)) eqn:E; simpl; rewrite ?E, IH; reflexivity.
Qed.

Lemma counted_labels_nonempty :
  forall (l : list MessageRow) (k : string),
    In k (counted_labels l) -> k <> "".
Proof.
  intros l k. unfold counted_labels. rewrite in_map_iff.
  intros [r [<- Hr]]. apply filter_In in Hr. destruct Hr as [_ Hr].
  destruct (scam_type r) as [s|]; simpl in *; [|discriminate].
  destruct (String.eqb_spec s ""); [discriminate|assumption].
Qed.

(** The keys of an object come from the keys it was bumped with. *)
Lemma set_keys :
  forall (o : JS.Obj) (k : string) (v : JS.Val) (x : string),
    In x (map fst (JS.set o k v)) -> x = k \/ In x (map fst o).
Proof.
  intros o k v x. unfold JS.set.
  destruct (JS.own o k).
  - induction o as [|[k' v'] o IH]; simpl; [tauto|].
    destruct (String.eqb k' k); simpl; tauto.
  - destruct (String.eqb k "__proto__"); [tauto|].
    rewrite map_app, in_app_iff. simpl. intuition.
Qed.

Lemma bumped_keys :
  forall (L : list string) (o : JS.Obj) (x : string),
    In x (map fst (fold_left bump L o)) -> In x L \/ In x (map fst o).
Proof.
  induction L as [|k L IH]; intros o x; simpl; [tauto|].
  intros H. apply IH in H. destruct H as [H|H]; [tauto|].
  apply set_keys in H. intuition.
Qed.

Lemma insert_by_index_In :
  forall n e l x,
    In x (JS.insert_by_index n e l) -> x = (n, e) \/ In x l.
Proof.
  intros n e l x. induction l as [|[m e'] l IH]; simpl.
  - intuition.
  - destruct (n <? m); simpl; intuition.
Qed.

Lemma index_entries_In :
  forall (o : JS.Obj) x, In x (JS.index_entries o) -> In (snd x) o.
Proof.
  induction o as [|[k v] o IH]; intros x; simpl; [tauto|].
  destruct (JS.array_index k).
  - intros H. apply insert_by_index_In in H. destruct H as [->|H]; auto.
  - auto.
Qed.

(** [Object.entries] lists own properties only. *)
Lemma entries_In :
  forall (o : JS.Obj) e, In e (JS.entries o) -> In e o.
Proof.
  intros o e. unfold JS.entries, JS.named_entries.
  rewrite in_app_iff, in_map_iff, filter_In.
  intros [[x [<- Hx]]|[H _]]; [apply index_entries_In|]; assumption.
Qed.

End Tally.

(** C9: a retrieved row whose label is falsy (the empty string, or [null])
    is skipped: the result is the one computed from the other rows alone,
    taking the row out of the retrieved sequence changes nothing, and no
    bucket carries the empty label; yet the request only filters out the
    [null] labels, so a row with an empty label is fetched. *)
Theorem falsy_labels_are_dropped :
  forall (h : Host) (user : User),
    current_user h = Some user ->
    error (respond h (scam_type_query user)) = None ->
    let fetched := rows_of (data (respond h (scam_type_query user))) in
    let kept := filter (fun r => truthy (scam_type r)) fetched in
    scam_type_query user =
      select_column "messages" "scam_type"
        [eq "user_id" (VText (id user)); eq "is_scam" (VBool true);
         not_is_null "scam_type"]
    /\ run getScamTypeDistribution h =
       (Returned (map (fun e => {| type := fst e; type_count := snd e |})
                      (JS.entries (tally_scam_types kept))),
        {| clock_reads := 0; events := [Queried (scam_type_query user)] |})
    /\ (forall b, In b (map (fun e => {| type := fst e; type_count := snd e |})
                            (JS.entries (tally_scam_types kept))) ->
                  type b <> "")
    /\ (forall before r after,
          truthy (scam_type r) = false ->
          tally_scam_types (before ++ r :: after)%list =
          tally_scam_types (before ++ after)%list).
Proof.
  intros h user Huser Hok fetched kept.
  split; [reflexivity|]. split; [|split].
  - unfold getScamTypeDistribution. effects. rewrite Huser, Hok. simpl.
    fold fetched. unfold kept.
    rewrite (tally_counted_labels (filter _ fetched)), counted_labels_kept,
      <- tally_counted_labels.
    reflexivity.
  - intros b Hb. apply in_map_iff in Hb. destruct Hb as [e [<- He]]. simpl.
    apply entries_In in He.
    assert (Hk : In (fst e) (map fst (tally_scam_types kept)))
      by (apply in_map; exact He).
    rewrite tally_counted_labels in Hk. apply bumped_keys in Hk.
    destruct Hk as [Hk|[]]. exact (counted_labels_nonempty _ _ Hk).
  - intros before r after Hr.
    rewrite !tally_counted_labels. f_equal.
    unfold counted_labels. rewrite !filter_app. simpl. rewrite Hr. reflexivity.
Qed.

Lemma falsy_labels_are_dropped_witness :
  run getScamTypeDistribution (labels_host ["phishing"; ""; "phishing"]) =
  (Returned [ {| type := "phishing"; type_count := JS.Num 2 |} ],
   {| clock_reads := 0; events := [Queried (scam_type_query alice)] |}).
Proof.
  exact (proj1 (proj2 (falsy_labels_are_dropped
                         (labels_host ["phishing"; ""; "phishing"]) alice
                         eq_refl eq_refl))).
Defined.

(** ** [getScamTypeDistribution]: counts and order *)

Section FirstOccurrences.

Lemma first_occurrences_In :
  forall (l : list string) (x : string),
    In x (first_occurrences l) <-> In x l.
Proof.
  induction l as [|a l IH]; intros x; simpl; [tauto|].
  rewrite filter_In, IH.
  destruct (String.eqb_spec x a) as [->|Hne]; simpl.
  - intuition.
  - intuition congruence.
Qed.

Lemma first_occurrences_NoDup :
  forall l : list string, NoDup (first_occurrences l).
Proof.
  induction l as [|a l IH]; simpl; constructor.
  - rewrite filter_In. intros [_ H]. rewrite String.eqb_refl in H. discriminate.
  - apply NoDup_filter. exact IH.
Qed.

Lemma filter_keeps_all :
  forall (A : Type) (f : A -> bool) (l : list A),
    (forall x, In x l -> f x = true) -> filter f l = l.
Proof.
  intros A f. induction l as [|a l IH]; intros H; simpl; [reflexivity|].
  rewrite (H a (or_introl eq_refl)), IH; [reflexivity|].
  intros x Hx. apply H. right. exact Hx.
Qed.

(** A label seen before leaves the order as it is; a new one goes last. *)
Lemma first_occurrences_seen :
  forall (l : list string) (x : string),
    In x l -> first_occurrences (l ++ [x]) = first_occurrences l.
Proof.
  induction l as [|a l IH]; intros x Hx; [destruct Hx|]; simpl.
  destruct (in_dec string_dec x l) as [Hin|Hout].
  - rewrite (IH x Hin). reflexivity.
  - destruct Hx as [->|Hx]; [|contradiction].
    assert (E : forall l', ~ In x l' ->
                 filter (fun y => negb (String.eqb y x)) (first_occurrences (l' ++ [x]))
                 = filter (fun y => negb (String.eqb y x)) (first_occurrences l')).
    { clear. induction l' as [|b l' IH]; intros Hout; simpl.
      - rewrite String.eqb_refl. reflexivity.
      - assert (Hb : b <> x) by (intros ->; apply Hout; left; reflexivity).
        assert (Hl : ~ In x l') by (intros H; apply Hout; right; exact H).
        destruct (String.eqb_spec b x); [contradiction|]. simpl. f_equal.
        set (p := fun y => negb (String.eqb y x)).
        set (q := fun y => negb (String.eqb y b)).
        specialize (IH Hl). fold p in IH.
        assert (C : forall m, filter p (filter q m) = filter q (filter p m)).
        { induction m as [|c m IHm]; simpl; [reflexivity|].
          destruct (q c) eqn:Eq, (p c) eqn:Ep; simpl;
            rewrite ?Eq, ?Ep, IHm; reflexivity. }
        rewrite !C, IH. reflexivity. }
    rewrite (E l Hout). reflexivity.
Qed.

Lemma first_occurrences_new :
  forall (l : list string) (x : string),
    ~ In x l -> first_occurrences (l ++ [x]) = (first_occurrences l ++ [x])%list.
Proof.
  induction l as [|a l IH]; intros x Hx; simpl; [reflexivity|].
  assert (Ha : x <> a) by (intros ->; apply Hx; left; reflexivity).
  assert (Hl : ~ In x l) by (intros H; apply Hx; right; exact H).
  rewrite (IH x Hl), filter_app. simpl.
  destruct (String.eqb_spec x a); [contradiction|]. reflexivity.
Qed.

Lemma occurrences_snoc :
  forall (l : list string) (x y : string),
    occurrences y (l ++ [x]) =
    occurrences y l + (if String.eqb y x then 1 else 0).
Proof.
  intros l x y. unfold occurrences.
  rewrite count_occ_app, Nat2Z.inj_add. f_equal. simpl.
  destruct (string_dec x y) as [->|Hne].
  - rewrite String.eqb_refl. reflexivity.
  - destruct (String.eqb_spec y x); [congruence|reflexivity].
Qed.

Lemma occurrences_positive :
  forall (l : list string) (x : string), In x l -> 0 < occurrences x l.
Proof.
  intros l x H. unfold occurrences.
  apply (count_occ_In string_dec) in H. lia.
Qed.

Lemma occurrences_none :
  forall (l : list string) (x : string), ~ In x l -> occurrences x l = 0.
Proof.
  intros l x H. unfold occurrences.
  apply (count_occ_not_In string_dec) in H. lia.
Qed.

End FirstOccurrences.

Section Counters.

Variable f : string -> JS.Val.

Let slots (K : list string) : JS.Obj := map (fun l => (l, f l)) K.

Lemma own_slots_in :
  forall (K : list string) (x : string),
    In x K -> JS.own (slots K) x = Some (f x).
Proof.
  induction K as [|a K IH]; intros x Hx; [destruct Hx|]; simpl.
  destruct (String.eqb_spec a x) as [->|Hne]; [reflexivity|].
  destruct Hx as [->|Hx]; [congruence|]. apply IH. exact Hx.
Qed.

Lemma own_slots_out :
  forall (K : list string) (x : string),
    ~ In x K -> JS.own (slots K) x = None.
Proof.
  induction K as [|a K IH]; intros x Hx; simpl; [reflexivity|].
  destruct (String.eqb_spec a x) as [->|Hne].
  - exfalso. apply Hx. left. reflexivity.
  - apply IH. intros H. apply Hx. right. exact H.
Qed.

Lemma replace_slots :
  forall (K : list string) (x : string) (v : JS.Val),
    NoDup K ->
    JS.replace (slots K) x v =
    map (fun l => (l, if String.eqb l x then v else f l)) K.
Proof.
  induction K as [|a K IH]; intros x v Hnd; simpl; [reflexivity|].
  inversion Hnd as [|a' K' Ha HK]; subst.
  destruct (String.eqb_spec a x) as [->|Hne].
  - f_equal. apply map_ext_in. intros l Hl.
    destruct (String.eqb_spec l x) as [->|]; [contradiction|reflexivity].
  - f_equal. apply IH. exact HK.
Qed.

End Counters.

Lemma plain_not_inherited :
  forall k : string, plain k = true -> JS.inherited k = false.
Proof.
  intros k H. unfold plain in H. apply andb_true_iff in H.
  destruct H as [_ H]. apply negb_true_iff in H. exact H.
Qed.

Lemma plain_not_index :
  forall k : string, plain k = true -> JS.is_array_index k = false.
Proof.
  intros k H. unfold plain in H. apply andb_true_iff in H.
  destruct H as [H _]. apply negb_true_iff in H. exact H.
Qed.

Lemma not_inherited_not_proto :
  forall k : string, JS.inherited k = false -> String.eqb k "__proto__" = false.
Proof.
  intros k H. destruct (String.eqb_spec k "__proto__") as [->|]; [|reflexivity].
  vm_compute in H. discriminate.
Qed.

(** Bumping keys that are not inherited names, one after the other, leaves
    one slot per distinct key, in the order of first occurrence, holding
    its number of occurrences. *)
Lemma bump_labels :
  forall L : list string,
    Forall (fun k => JS.inherited k = false) L ->
    fold_left bump L JS.empty =
    map (fun l => (l, JS.Num (occurrences l L))) (first_occurrences L).
Proof.
  induction L as [|x L IH] using rev_ind; intros HL; [reflexivity|].
  apply Forall_app in HL. destruct HL as [HL Hx].
  inversion Hx as [|x' l' Hpx _]; subst.
  rewrite fold_left_app. simpl. rewrite (IH HL). clear IH.
  unfold bump, JS.get, JS.set.
  destruct (in_dec string_dec x L) as [Hin|Hout].
  - assert (Hk : In x (first_occurrences L)) by (apply first_occurrences_In; exact Hin).
    rewrite (own_slots_in (fun l => JS.Num (occurrences l L)) _ _ Hk).
    simpl. pose proof (occurrences_positive L x Hin) as Hpos.
    destruct (Z.eqb_spec (occurrences x L) 0); [lia|]. simpl.
    rewrite (replace_slots (fun l => JS.Num (occurrences l L)));
      [|apply first_occurrences_NoDup].
    rewrite (first_occurrences_seen L x Hin).
    apply map_ext. intros l. rewrite occurrences_snoc.
    destruct (String.eqb_spec l x) as [->|]; [reflexivity|].
    rewrite Z.add_0_r. reflexivity.
  - assert (Hk : ~ In x (first_occurrences L))
      by (rewrite first_occurrences_In; exact Hout).
    rewrite (own_slots_out (fun l => JS.Num (occurrences l L)) _ _ Hk).
    rewrite Hpx. simpl.
    rewrite (not_inherited_not_proto x Hpx).
    rewrite (first_occurrences_new L x Hout), map_app. simpl.
    rewrite occurrences_snoc, String.eqb_refl, (occurrences_none L x Hout).
    f_equal. apply map_ext_in. intros l Hl. rewrite occurrences_snoc.
    destruct (String.eqb_spec l x) as [->|]; [contradiction|].
    rewrite Z.add_0_r. reflexivity.
Qed.

(** With no array-index key, [Object.entries] follows the order of
    creation. *)
Lemma entries_without_index :
  forall o : JS.Obj,
    Forall (fun e => JS.is_array_index (fst e) = false) o -> JS.entries o = o.
Proof.
  intros o Ho. unfold JS.entries, JS.named_entries.
  assert (E : JS.index_entries o = []).
  { induction Ho as [|[k v] o Hk Ho IH]; simpl; [reflexivity|].
    simpl in Hk. unfold JS.is_array_index in Hk.
    destruct (JS.array_index k); [discriminate|exact IH]. }
  rewrite E. simpl. apply filter_keeps_all.
  intros e He. rewrite Forall_forall in Ho. rewrite (Ho e He). reflexivity.
Qed.

(** C4 (amended): when the counted labels are plain (no array index, no
    name inherited from [Object.prototype]), the result has one pair per
    distinct label, in the order of first occurrence, with the number of
    occurrences of the label; labels [A; A; B] give [A:2; B:1], and no rows
    give the empty array. *)
Theorem scam_types_by_first_occurrence :
  forall (h : Host) (user : User),
    current_user h = Some user ->
    error (respond h (scam_type_query user)) = None ->
    let labels := counted_labels (rows_of (data (respond h (scam_type_query user)))) in
    Forall (fun k => plain k = true) labels ->
    run getScamTypeDistribution h =
    (Returned (by_first_occurrence labels),
     {| clock_reads := 0; events := [Queried (scam_type_query user)] |})
    /\ (labels = [] -> fst (run getScamTypeDistribution h) = Returned [])
    /\ (forall A B, A <> B -> labels = [A; A; B] ->
        fst (run getScamTypeDistribution h) =
        Returned [ {| type := A; type_count := JS.Num 2 |};
                   {| type := B; type_count := JS.Num 1 |} ]).
Proof.
  intros h user Huser Hok labels Hplain.
  assert (E : run getScamTypeDistribution h =
              (Returned (by_first_occurrence labels),
               {| clock_reads := 0; events := [Queried (scam_type_query user)] |})).
  { unfold getScamTypeDistribution. effects. rewrite Huser, Hok. simpl.
    rewrite tally_counted_labels. fold labels.
    rewrite (bump_labels labels);
      [|revert Hplain; apply Forall_impl; exact plain_not_inherited].
    rewrite entries_without_index.
    + unfold by_first_occurrence. rewrite map_map. reflexivity.
    + apply Forall_forall. intros e He. apply in_map_iff in He.
      destruct He as [l [<- Hl]]. simpl.
      apply (proj1 (first_occurrences_In _ _)) in Hl.
      rewrite Forall_forall in Hplain. apply plain_not_index. auto. }
  rewrite E. split; [reflexivity|]. simpl. split.
  - intros ->. reflexivity.
  - intros A B Hne ->. unfold by_first_occurrence, occurrences. simpl.
    repeat (match goal with
            | |- context [string_dec ?a ?b] =>
                destruct (string_dec a b); try congruence
            | |- context [String.eqb ?a ?b] =>
                destruct (String.eqb_spec a b); try congruence
            end; simpl).
    reflexivity.
Qed.

Lemma scam_types_by_first_occurrence_witness :
  run getScamTypeDistribution (labels_host ["phishing"; "phishing"; "lottery"]) =
  (Returned [ {| type := "phishing"; type_count := JS.Num 2 |};
              {| type := "lottery"; type_count := JS.Num 1 |} ],
   {| clock_reads := 0; events := [Queried (scam_type_query alice)] |}).
Proof.
  refine (proj1 (scam_types_by_first_occurrence
                   (labels_host ["phishing"; "phishing"; "lottery"]) alice
                   eq_refl eq_refl _)).
  repeat constructor.
Defined.

(** C4, as stated, fails on labels that are array indices: retrieved in
    the order [b; 1], they come out as [1; b]. *)
Lemma scam_types_not_by_first_occurrence :
  counted_labels (rows_of (data (respond (labels_host ["b"; "1"])
                                         (scam_type_query alice)))) = ["b"; "1"]
  /\ fst (run getScamTypeDistribution (labels_host ["b"; "1"])) =
     Returned [ {| type := "1"; type_count := JS.Num 1 |};
                {| type := "b"; type_count := JS.Num 1 |} ]
  /\ fst (run getScamTypeDistribution (labels_host ["b"; "1"])) <>
     Returned (by_first_occurrence ["b"; "1"]).
Proof.
  split; [reflexivity|]. split; [reflexivity|].
  vm_compute. discriminate.
Qed.

(** * Dates *)

(** ** The ISO rendering of a date *)

Section IsoStrings.
Import ESDate.

Lemma digit_char_cases :
  forall d : Z,
    0 <= d < 10 ->
    In (digit_char d)
       ["0"; "1"; "2"; "3"; "4"; "5"; "6"; "7"; "8"; "9"]%char.
Proof.
  intros d Hd.
  assert (C : d = 0 \/ d = 1 \/ d = 2 \/ d = 3 \/ d = 4 \/ d = 5 \/ d = 6
              \/ d = 7 \/ d = 8 \/ d = 9) by lia.
  repeat (destruct C as [->|C]; [simpl; tauto|]). subst d. simpl. tauto.
Qed.

Lemma mod_10_digit : forall n : Z, 0 <= n mod 10 < 10.
Proof. intros n. apply Z.mod_pos_bound. lia. Qed.

Lemma includes_app :
  forall (s r : string) (c : ascii),
    JS.includes (s ++ r) c = JS.includes s c || JS.includes r c.
Proof.
  induction s as [|a s IH]; intros r c; simpl; [reflexivity|].
  rewrite IH, orb_assoc. reflexivity.
Qed.

Lemma pad_without_T :
  forall (w : nat) (n : Z), JS.includes (pad w n) "T" = false.
Proof.
  induction w as [|w IH]; intros n; [reflexivity|].
  change (pad (S w) n)
    with (pad w (n / 10) ++ String (digit_char (n mod 10)) "").
  rewrite includes_app, IH.
  pose proof (digit_char_cases (n mod 10) (mod_10_digit n)) as C.
  cbn [In] in C. cbn [JS.includes orb].
  repeat (destruct C as [<-|C]; [reflexivity|]). destruct C.
Qed.

(** The rendering of a number starts with a digit. *)
Lemma pad_first :
  forall (w : nat) (n : Z),
    exists d rest, 0 <= d < 10 /\ pad (S w) n = String (digit_char d) rest.
Proof.
  induction w as [|w IH]; intros n.
  - exists (n mod 10), "". split; [apply mod_10_digit|reflexivity].
  - destruct (IH (n / 10)) as [d [rest [Hd E]]].
    exists d, (rest ++ String (digit_char (n mod 10)) "").
    split; [exact Hd|].
    change (pad (S (S w)) n)
      with (pad (S w) (n / 10) ++ String (digit_char (n mod 10)) "").
    rewrite E. reflexivity.
Qed.

Lemma digit_first_not_inherited :
  forall (d : Z) (rest : string),
    0 <= d < 10 -> JS.inherited (String (digit_char d) rest) = false.
Proof.
  intros d rest Hd.
  pose proof (digit_char_cases d Hd) as C. cbn [In] in C.
  repeat (destruct C as [<-|C]; [reflexivity|]). destruct C.
Qed.

Lemma iso_date_without_T :
  forall t : Z, JS.includes (iso_date t) "T" = false.
Proof.
  intros t. unfold iso_date, year_string.
  destruct ((0 <=? YearFromTime t) && (YearFromTime t <=? 9999));
    [|destruct (0 <=? YearFromTime t)];
    rewrite !includes_app, !pad_without_T; reflexivity.
Qed.

(** An ISO date is never a name inherited from [Object.prototype]. *)
Lemma iso_date_not_inherited :
  forall t : Z, JS.inherited (iso_date t) = false.
Proof.
  intros t. unfold iso_date, year_string.
  destruct ((0 <=? YearFromTime t) && (YearFromTime t <=? 9999)).
  - destruct (pad_first 3 (YearFromTime t)) as [d [rest [Hd E]]].
    rewrite E. apply digit_first_not_inherited. exact Hd.
  - destruct (0 <=? YearFromTime t); reflexivity.
Qed.

Lemma split_first :
  forall (sep : ascii) (s r : string),
    JS.includes s sep = false ->
    hd "" (JS.split sep (s ++ String sep r)) = s.
Proof.
  intros sep. induction s as [|a s IH]; intros r Hs; simpl.
  - rewrite Ascii.eqb_refl. reflexivity.
  - simpl in Hs. apply orb_false_iff in Hs. destruct Hs as [Ha Hs].
    rewrite Ha. specialize (IH r Hs).
    destruct (JS.split sep (s ++ String sep r)); simpl in *; congruence.
Qed.

(** [toISOString().split('T')[0]] is the date part of the rendering. *)
Lemma before_T_iso :
  forall (t : Z) (iso : string),
    ESDate.toISOString (Some t) = Some iso -> before_T iso = iso_date t.
Proof.
  intros t iso E. simpl in E. inversion E; subst. unfold before_T.
  apply split_first. apply iso_date_without_T.
Qed.

End IsoStrings.

(** ** Days and local time *)

Section Calendar.
Import ESDate.

Lemma MonthFromTime_range : forall t : Z, 0 <= MonthFromTime t <= 11.
Proof.
  intros t. unfold MonthFromTime.
  repeat match goal with
         | |- context [if ?c then _ else _] => destruct c
         end; lia.
Qed.

(** Setting the day of the month to [today - n] moves [n] days back. *)
Lemma MakeDay_back :
  forall t n : Z,
    MakeDay (YearFromTime t) (MonthFromTime t) (DateFromTime t - n) = Day t - n.
Proof.
  intros t n. unfold MakeDay.
  pose proof (MonthFromTime_range t) as HM.
  rewrite (Z.div_small (MonthFromTime t) 12) by lia.
  rewrite (Z.mod_small (MonthFromTime t) 12) by lia.
  rewrite Z.add_0_r.
  unfold DateFromTime, DayWithinYear, InLeapYear. lia.
Qed.

Lemma Day_back :
  forall t n : Z, Day (t - n * msPerDay) = Day t - n.
Proof.
  intros t n. unfold Day.
  replace (t - n * msPerDay) with (t + (- n) * msPerDay) by lia.
  rewrite Z.div_add by (unfold msPerDay; lia). lia.
Qed.

Lemma days_back_fixed :
  forall (off t n : Z),
    days_back (fixed_zone off) (Some t) n = TimeClip (t - n * msPerDay).
Proof.
  intros off t n.
  unfold days_back, getDate, setDate, LocalTime, UTC.
  cbn [option_map fixed_zone offset_at_utc offset_at_local].
  rewrite MakeDay_back. unfold MakeDate, TimeWithinDay, Day. f_equal.
  pose proof (Z.div_mod (t + off) msPerDay) as E.
  assert (msPerDay <> 0) by (unfold msPerDay; lia).
  specialize (E H). lia.
Qed.

Lemma day_reached :
  forall D t : Z, (msPerDay * D <=? t) = (D <=? Day t).
Proof.
  intros D t. unfold Day, msPerDay.
  destruct (Z.leb_spec (86400000 * D) t), (Z.leb_spec D (t / 86400000));
    try reflexivity; exfalso.
  - assert (t / 86400000 < D) by lia.
    pose proof (Z.mul_div_le t 86400000). 
    pose proof (Z.mod_pos_bound t 86400000).
    pose proof (Z.div_mod t 86400000). lia.
  - pose proof (Z.mul_div_le t 86400000). lia.
Qed.

Lemma day_not_reached :
  forall D t : Z, (t <? msPerDay * D) = (Day t <? D).
Proof.
  intros D t. rewrite !Z.ltb_antisym, day_reached. reflexivity.
Qed.

Lemma Day_start : forall d : Z, Day (d * msPerDay) = d.
Proof. intros d. unfold Day. apply Z.div_mul. unfold msPerDay. lia. Qed.

(** The calendar fields of an instant are those of the start of its
    day. *)
Lemma YearFromTime_Day :
  forall t : Z, YearFromTime t = YearFromTime (Day t * msPerDay).
Proof.
  intros t. unfold YearFromTime, TimeFromYear.
  rewrite !day_reached, !day_not_reached, !Day_start. reflexivity.
Qed.

Lemma iso_date_Day :
  forall t : Z, iso_date t = date_of_day (Day t).
Proof.
  intros t. unfold date_of_day.
  assert (EY : YearFromTime t = YearFromTime (Day t * msPerDay))
    by apply YearFromTime_Day.
  assert (EW : DayWithinYear t = DayWithinYear (Day t * msPerDay))
    by (unfold DayWithinYear; rewrite <- EY, Day_start; reflexivity).
  assert (EL : InLeapYear t = InLeapYear (Day t * msPerDay))
    by (unfold InLeapYear; rewrite <- EY; reflexivity).
  assert (EM : MonthFromTime t = MonthFromTime (Day t * msPerDay))
    by (unfold MonthFromTime; rewrite <- EW, <- EL; reflexivity).
  assert (ED : DateFromTime t = DateFromTime (Day t * msPerDay))
    by (unfold DateFromTime; rewrite <- EW, <- EL, <- EM; reflexivity).
  unfold iso_date. rewrite <- EY, <- EM, <- ED. reflexivity.
Qed.

Lemma TimeClip_valid :
  forall t : Z, Z.abs t <= 8640000000000000 -> TimeClip t = Some t.
Proof.
  intros t H. unfold TimeClip.
  destruct (Z.ltb_spec 8640000000000000 (Z.abs t)); [lia|reflexivity].
Qed.

End Calendar.

(** ** The calendar: years, months and days of the month *)

Section CalendarDates.
Import ESDate.

Lemma DayFromYear_step :
  forall y : Z, DayFromYear (y + 1) = DayFromYear y + DaysInYear y.
Proof.
  intros y. unfold DayFromYear, DaysInYear.
  replace (y + 1 - 1970) with (y - 1969) by lia.
  replace (y + 1 - 1969) with (y - 1968) by lia.
  replace (y + 1 - 1901) with (y - 1900) by lia.
  replace (y + 1 - 1601) with (y - 1600) by lia.
  destruct (Z.eqb_spec (y mod 4) 0), (Z.eqb_spec (y mod 100) 0),
    (Z.eqb_spec (y mod 400) 0); cbn [negb];
    Z.div_mod_to_equations; lia.
Qed.

(** [YearFromTime t] is the year whose days include the day of [t]. *)
Lemma YearFromTime_spec :
  forall t : Z,
    DayFromYear (YearFromTime t) <= Day t < DayFromYear (YearFromTime t + 1).
Proof.
  intros t. unfold YearFromTime, TimeFromYear.
  rewrite day_reached, day_not_reached.
  set (d := Day t).
  set (y := 1970 + 400 * d / 146097).
  assert (B : DayFromYear (y - 1) <= d < DayFromYear (y + 2)).
  { unfold y, DayFromYear. Z.div_mod_to_equations. lia. }
  destruct (Z.leb_spec (DayFromYear (y + 1)) d).
  - replace (y + 1 + 1) with (y + 2) by lia. lia.
  - destruct (Z.ltb_spec d (DayFromYear y)).
    + replace (y - 1 + 1) with y by lia. lia.
    + lia.
Qed.

Lemma InLeapYear_days :
  forall t : Z, DaysInYear (YearFromTime t) = 365 + InLeapYear t
                /\ 0 <= InLeapYear t <= 1.
Proof.
  intros t. unfold InLeapYear, DaysInYear.
  repeat match goal with
         | |- context [if negb ?c then _ else _] => destruct c; cbn [negb]
         end; cbn; lia.
Qed.

Lemma DayWithinYear_range :
  forall t : Z, 0 <= DayWithinYear t < 365 + InLeapYear t.
Proof.
  intros t. unfold DayWithinYear.
  pose proof (YearFromTime_spec t) as H.
  rewrite DayFromYear_step in H.
  destruct (InLeapYear_days t) as [E _]. lia.
Qed.

Lemma DateFromTime_range : forall t : Z, 1 <= DateFromTime t <= 31.
Proof.
  intros t. unfold DateFromTime, MonthFromTime.
  pose proof (DayWithinYear_range t) as HW.
  destruct (InLeapYear_days t) as [_ HL].
  repeat match goal with
         | |- context [if ?a <? ?b then _ else _] => destruct (Z.ltb_spec a b)
         end; cbn [MonthStart]; lia.
Qed.

(** The day number, back from the calendar fields. *)
Lemma Day_from_fields :
  forall t : Z,
    Day t = DayFromYear (YearFromTime t)
            + MonthStart (MonthFromTime t) (InLeapYear t) + DateFromTime t - 1.
Proof. intros t. unfold DateFromTime, DayWithinYear. lia. Qed.

Lemma YearFromTime_bounded :
  forall t : Z,
    Z.abs (Day t) <= 100000000 -> -271822 <= YearFromTime t <= 275761.
Proof.
  intros t Ht. pose proof (YearFromTime_spec t) as H.
  unfold DayFromYear in H. Z.div_mod_to_equations. lia.
Qed.
End CalendarDates.

Section DateStrings.
Import ESDate.

Lemma String_inj :
  forall (a b : ascii) (s r : string),
    String a s = String b r -> a = b /\ s = r.
Proof. intros a b s r E. injection E as -> ->. auto. Qed.

Lemma append_same_length :
  forall s1 s2 r1 r2 : string,
    String.length s1 = String.length s2 ->
    s1 ++ r1 = s2 ++ r2 -> s1 = s2 /\ r1 = r2.
Proof.
  induction s1 as [|a s1 IH]; intros [|b s2] r1 r2 Hlen E;
    simpl in *; try discriminate.
  - auto.
  - inversion E; subst. inversion Hlen as [Hlen'].
    destruct (IH s2 r1 r2 Hlen' H1) as [-> ->]. auto.
Qed.

Lemma append_length :
  forall s r : string,
    String.length (s ++ r) = (String.length s + String.length r)%nat.
Proof.
  induction s as [|a s IH]; intros r; simpl; [reflexivity|].
  rewrite IH. reflexivity.
Qed.

Lemma pad_length : forall (w : nat) (n : Z), String.length (pad w n) = w.
Proof.
  induction w as [|w IH]; intros n; [reflexivity|].
  change (pad (S w) n)
    with (pad w (n / 10) ++ String (digit_char (n mod 10)) "").
  rewrite append_length, IH. simpl. lia.
Qed.

Lemma digit_char_inj :
  forall a b : Z,
    0 <= a < 10 -> 0 <= b < 10 -> digit_char a = digit_char b -> a = b.
Proof.
  intros a b Ha Hb E. unfold digit_char in E.
  apply (f_equal nat_of_ascii) in E.
  rewrite !nat_ascii_embedding in E by lia. lia.
Qed.

(** A number below [10 ^ w] can be read back from its [w] digits. *)
Lemma pad_inj :
  forall (w : nat) (n m : Z),
    0 <= n < 10 ^ Z.of_nat w -> 0 <= m < 10 ^ Z.of_nat w ->
    pad w n = pad w m -> n = m.
Proof.
  induction w as [|w IH]; intros n m Hn Hm E.
  - simpl in Hn, Hm. lia.
  - change (pad (S w) n)
      with (pad w (n / 10) ++ String (digit_char (n mod 10)) "") in E.
    change (pad (S w) m)
      with (pad w (m / 10) ++ String (digit_char (m mod 10)) "") in E.
    apply append_same_length in E; [|rewrite !pad_length; reflexivity].
    destruct E as [E1 E2]. apply String_inj in E2. destruct E2 as [E3 _].
    apply digit_char_inj in E3; try apply mod_10_digit.
    rewrite Nat2Z.inj_succ, Z.pow_succ_r in Hn, Hm by lia.
    apply IH in E1.
    + pose proof (Z.div_mod n 10). pose proof (Z.div_mod m 10). lia.
    + split; [apply Z.div_pos; lia|apply Z.div_lt_upper_bound; lia].
    + split; [apply Z.div_pos; lia|apply Z.div_lt_upper_bound; lia].
Qed.

Lemma digit_char_not_sign :
  forall d : Z, 0 <= d < 10 -> digit_char d <> "+"%char /\ digit_char d <> "-"%char.
Proof.
  intros d Hd. pose proof (digit_char_cases d Hd) as C. cbn [In] in C.
  repeat (destruct C as [<-|C]; [split; discriminate|]). destruct C.
Qed.

Lemma signed_year_inj :
  forall (c1 c2 : ascii) (n1 n2 : Z) (r1 r2 : string),
    0 <= n1 <= 999999 -> 0 <= n2 <= 999999 ->
    (String c1 "" ++ pad 6 n1) ++ r1 = (String c2 "" ++ pad 6 n2) ++ r2 ->
    c1 = c2 /\ n1 = n2 /\ r1 = r2.
Proof.
  intros c1 c2 n1 n2 r1 r2 H1 H2 E.
  change ((String c1 "" ++ pad 6 n1) ++ r1)
    with (String c1 (pad 6 n1 ++ r1)) in E.
  change ((String c2 "" ++ pad 6 n2) ++ r2)
    with (String c2 (pad 6 n2 ++ r2)) in E.
  apply String_inj in E. destruct E as [Ec E].
  apply append_same_length in E; [|rewrite !pad_length; reflexivity].
  destruct E as [E ->]. apply pad_inj in E;
    [auto|change (10 ^ Z.of_nat 6) with 1000000; lia ..].
Qed.

Lemma plain_year_not_signed :
  forall (c : ascii) (y n : Z) (r1 r2 : string),
    c = "+"%char \/ c = "-"%char ->
    pad 4 y ++ r1 <> (String c "" ++ pad 6 n) ++ r2.
Proof.
  intros c y n r1 r2 Hc E.
  destruct (pad_first 3 y) as [d [rest [Hd Ep]]]. rewrite Ep in E.
  change ((String c "" ++ pad 6 n) ++ r2) with (String c (pad 6 n ++ r2)) in E.
  change (String (digit_char d) rest ++ r1)
    with (String (digit_char d) (rest ++ r1)) in E.
  apply String_inj in E. destruct E as [Ec _].
  destruct (digit_char_not_sign d Hd). destruct Hc; congruence.
Qed.

Lemma year_string_inj :
  forall (y1 y2 : Z) (r1 r2 : string),
    Z.abs y1 <= 999999 -> Z.abs y2 <= 999999 ->
    year_string y1 ++ r1 = year_string y2 ++ r2 -> y1 = y2 /\ r1 = r2.
Proof.
  intros y1 y2 r1 r2 H1 H2. unfold year_string.
  destruct (Z.leb_spec 0 y1), (Z.leb_spec y1 9999),
    (Z.leb_spec 0 y2), (Z.leb_spec y2 9999); cbn [andb]; try lia; intros E.
  - apply append_same_length in E; [|rewrite !pad_length; reflexivity].
    destruct E as [E ->]. apply pad_inj in E;
      [auto|change (10 ^ Z.of_nat 4) with 10000; lia ..].
  - exfalso. revert E. apply plain_year_not_signed. auto.
  - exfalso. revert E. apply plain_year_not_signed. auto.
  - exfalso. symmetry in E. revert E. apply plain_year_not_signed. auto.
  - apply signed_year_inj in E; [tauto|lia|lia].
  - apply signed_year_inj in E; [|lia|lia]. destruct E as [E _]. discriminate.
  - exfalso. symmetry in E. revert E. apply plain_year_not_signed. auto.
  - apply signed_year_inj in E; [|lia|lia]. destruct E as [E _]. discriminate.
  - apply signed_year_inj in E; [|lia|lia]. split; [lia|tauto].
Qed.

(** Two days of the range of [Date] with the same ISO date are the same
    day. *)
Lemma date_of_day_inj :
  forall d1 d2 : Z,
    Z.abs d1 <= 100000000 -> Z.abs d2 <= 100000000 ->
    date_of_day d1 = date_of_day d2 -> d1 = d2.
Proof.
  intros d1 d2 H1 H2. unfold date_of_day, iso_date.
  set (t1 := d1 * msPerDay). set (t2 := d2 * msPerDay).
  assert (E1 : Day t1 = d1) by apply Day_start.
  assert (E2 : Day t2 = d2) by apply Day_start.
  pose proof (YearFromTime_bounded t1) as Y1. rewrite E1 in Y1.
  pose proof (YearFromTime_bounded t2) as Y2. rewrite E2 in Y2.
  specialize (Y1 H1). specialize (Y2 H2).
  intros E. apply year_string_inj in E; [|lia|lia].
  destruct E as [EY E].
  change ("-" ++ pad 2 (MonthFromTime t1 + 1) ++ "-" ++ pad 2 (DateFromTime t1))
    with (String "-" (pad 2 (MonthFromTime t1 + 1)
                        ++ String "-" (pad 2 (DateFromTime t1)))) in E.
  change ("-" ++ pad 2 (MonthFromTime t2 + 1) ++ "-" ++ pad 2 (DateFromTime t2))
    with (String "-" (pad 2 (MonthFromTime t2 + 1)
                        ++ String "-" (pad 2 (DateFromTime t2)))) in E.
  apply String_inj in E. destruct E as [_ E'].
  apply append_same_length in E'; [|rewrite !pad_length; reflexivity].
  destruct E' as [EM E']. apply String_inj in E'. destruct E' as [_ ED].
  pose proof (MonthFromTime_range t1). pose proof (MonthFromTime_range t2).
  pose proof (DateFromTime_range t1). pose proof (DateFromTime_range t2).
  apply pad_inj in EM; [|change (10 ^ Z.of_nat 2) with 100; lia ..].
  apply pad_inj in ED; [|change (10 ^ Z.of_nat 2) with 100; lia ..].
  rewrite <- E1, <- E2, (Day_from_fields t1), (Day_from_fields t2).
  unfold InLeapYear. rewrite EY, ED.
  replace (MonthFromTime t1) with (MonthFromTime t2) by lia.
  reflexivity.
Qed.

End DateStrings.

Section TrailingDays.

Lemma trailing_days_range :
  forall (today : Z) (n : nat) (d : Z),
    In d (trailing_days today n) -> today - Z.of_nat n < d <= today.
Proof.
  intros today. induction n as [|i IH]; intros d; [intros []|].
  cbn [trailing_days In]. intros [<-|H]; [lia|].
  apply IH in H. lia.
Qed.

Lemma trailing_days_length :
  forall (today : Z) (n : nat), List.length (trailing_days today n) = n.
Proof. intros today. induction n; simpl; congruence. Qed.

(** The day numbers go up one by one and end today. *)
Lemma trailing_days_nth :
  forall (today : Z) (n k : nat),
    (k < n)%nat ->
    nth k (trailing_days today n) 0 = today - Z.of_nat (n - 1 - k).
Proof.
  intros today. induction n as [|i IH]; intros k Hk; [lia|].
  cbn [trailing_days]. destruct k as [|k]; cbn [nth].
  - f_equal. lia.
  - rewrite IH by lia. f_equal. lia.
Qed.

(** The dates of the trailing days are pairwise distinct. *)
Lemma trailing_dates_NoDup :
  forall (today : Z) (n : nat),
    Z.abs today <= 100000000 -> Z.abs (today - Z.of_nat n) <= 100000000 ->
    NoDup (map date_of_day (trailing_days today n)).
Proof.
  intros today. induction n as [|i IH]; intros Ht Hn; [constructor|].
  cbn [trailing_days map]. constructor.
  - rewrite in_map_iff. intros [d [E Hd]].
    apply trailing_days_range in Hd.
    apply date_of_day_inj in E; lia.
  - apply IH; lia.
Qed.

End TrailingDays.


(** * [getDailyDetections] *)

(** ** [getDailyDetections]: the counts of the buckets *)

Section DailyCounts.

Lemma toISOString_run :
  forall (d : ESDate.Date) (h : Host) (s : State),
    toISOString d h s =
    match ESDate.toISOString d with
    | Some iso => (Returned iso, s)
    | None => (Thrown RangeError, s)
    end.
Proof.
  intros d h s. unfold toISOString.
  destruct (ESDate.toISOString d); reflexivity.
Qed.

Lemma toISOString_cases :
  forall d : ESDate.Date,
    (d = None /\ ESDate.toISOString d = None)
    \/ (exists t iso, d = Some t /\ ESDate.toISOString d = Some iso
                      /\ before_T iso = ESDate.iso_date t).
Proof.
  intros [t|]; [right|left; split; reflexivity].
  exists t, (ESDate.iso_date t ++ "T" ++ ESDate.iso_time t).
  split; [reflexivity|]. split; [reflexivity|].
  apply before_T_iso. reflexivity.
Qed.

(** When the [forEach] goes through, every row was counted under its UTC
    date. *)
Lemma tally_dates_returns :
  forall (l : list MessageRow) (o : JS.Obj) (h : Host) (s : State) o' s',
    tally_dates l o h s = (Returned o', s') ->
    o' = fold_left bump (map utc_date l) o.
Proof.
  induction l as [|r l IH]; intros o h s o' s'.
  - simpl. unfold ret. congruence.
  - cbn [tally_dates map fold_left]. unfold bind.
    rewrite toISOString_run. unfold Date_of, ESDate.TimeClip.
    destruct (_ <? _).
    + simpl. discriminate.
    + destruct (toISOString_cases (Some (created_at r)))
        as [[E _]|[t [iso [E [Eiso Ed]]]]]; [discriminate|].
      inversion E; subst t. rewrite Eiso, Ed. apply IH.
Qed.

(** When the loop goes through, it has appended one bucket per iteration,
    each dated with an ISO date and holding [detectionsByDate[date] || 0]. *)
Lemma fill_buckets_returns :
  forall (n : nat) (o : JS.Obj) (res : list DailyDetection)
         (h : Host) (s : State) bs s',
    fill_buckets n o res h s = (Returned bs, s') ->
    exists new,
      bs = (res ++ new)%list
      /\ List.length new = n
      /\ Forall (fun b => JS.inherited (date b) = false
                          /\ count b = JS.or_zero (JS.get o (date b))) new.
Proof.
  induction n as [|i IH]; intros o res h s bs s'.
  - simpl. unfold ret. intros E. inversion E; subst. exists [].
    rewrite app_nil_r. repeat split. constructor.
  - cbn [fill_buckets]. unfold bind at 1. unfold new_Date.
    unfold bind at 1. unfold local_zone. unfold bind at 1.
    rewrite toISOString_run.
    destruct (toISOString_cases
                (days_back (zone h)
                   (ESDate.TimeClip (clock h (clock_reads s))) (Z.of_nat i)))
      as [[_ E]|[t [iso [_ [E Ed]]]]]; rewrite E; [discriminate|].
    rewrite Ed. intros Hrun.
    apply IH in Hrun. destruct Hrun as [new [-> [Hlen Hall]]].
    eexists (_ :: new). rewrite <- app_assoc. simpl.
    split; [reflexivity|]. split; [congruence|].
    constructor; [|exact Hall]. simpl.
    split; [apply iso_date_not_inherited|reflexivity].
Qed.

(** Reading a counter back after the tally. *)
Lemma counter_read :
  forall (D : list string) (k : string),
    Forall (fun d => JS.inherited d = false) D ->
    JS.inherited k = false ->
    JS.or_zero (JS.get (fold_left bump D JS.empty) k) =
    JS.Prim (JS.Num (occurrences k D)).
Proof.
  intros D k HD Hk. rewrite (bump_labels D HD). unfold JS.get.
  destruct (in_dec string_dec k D) as [Hin|Hout].
  - rewrite (own_slots_in (fun l => JS.Num (occurrences l D)));
      [|apply first_occurrences_In; exact Hin].
    simpl. pose proof (occurrences_positive D k Hin).
    destruct (Z.eqb_spec (occurrences k D) 0); [lia|reflexivity].
  - rewrite (own_slots_out (fun l => JS.Num (occurrences l D)));
      [|rewrite first_occurrences_In; exact Hout].
    rewrite Hk. simpl. rewrite (occurrences_none D k Hout). reflexivity.
Qed.

Lemma count_one_more_key :
  forall (k : string) (K l : list string),
    ~ In k K ->
    (count_occ string_dec l k
     + List.length (filter (fun x => existsb (String.eqb x) K) l))%nat =
    List.length
      (filter (fun x => String.eqb x k || existsb (String.eqb x) K) l).
Proof.
  intros k K l Hk.
  assert (E : existsb (String.eqb k) K = false).
  { destruct (existsb (String.eqb k) K) eqn:E; [|reflexivity].
    apply existsb_exists in E. destruct E as [y [Hy E]].
    apply String.eqb_eq in E. subst y. contradiction. }
  induction l as [|x l IHl]; [reflexivity|].
  cbn [count_occ filter].
  destruct (string_dec x k) as [->|Hne].
  - rewrite String.eqb_refl, E. cbn [orb List.length].
    rewrite <- IHl. reflexivity.
  - destruct (String.eqb_spec x k) as [->|_]; [congruence|]. cbn [orb].
    destruct (existsb (String.eqb x) K); cbn [List.length];
      rewrite <- IHl; lia.
Qed.

(** Over distinct keys, the occurrences add up to the number of elements
    that are one of the keys. *)
Lemma occurrences_sum :
  forall (K l : list string),
    NoDup K ->
    fold_right (fun k acc => occurrences k l + acc) 0 K =
    Z.of_nat (List.length (filter (fun x => existsb (String.eqb x) K) l)).
Proof.
  induction K as [|k K IH]; intros l HK.
  - cbn [fold_right existsb].
    induction l as [|x l IHl]; [reflexivity|exact IHl].
  - inversion HK as [|k' K' Hk HK']; subst.
    cbn [fold_right]. rewrite (IH l HK'). unfold occurrences.
    rewrite <- Nat2Z.inj_add. f_equal.
    exact (count_one_more_key k K l Hk).
Qed.

Lemma sum_counts_read :
  forall (D : list string) (bs : list DailyDetection),
    Forall (fun b => count b = JS.Prim (JS.Num (occurrences (date b) D))) bs ->
    sum_counts bs =
    fold_right (fun k acc => occurrences k D + acc) 0 (map date bs).
Proof.
  intros D bs H. induction H as [|b bs Hb _ IH]; simpl; [reflexivity|].
  rewrite Hb. simpl. rewrite <- IH. reflexivity.
Qed.

Lemma filter_length_le :
  forall (A : Type) (f : A -> bool) (l : list A),
    (List.length (filter f l) <= List.length l)%nat.
Proof.
  intros A f. induction l as [|a l IH]; simpl; [lia|].
  destruct (f a); simpl; lia.
Qed.

End DailyCounts.

(** What a call of [getDailyDetections] that returns has gone through. *)
Lemma getDailyDetections_returns :
  forall (h : Host) (days : Z) (bs : list DailyDetection) (st : State),
    run (getDailyDetections days) h = (Returned bs, st) ->
    (current_user h = None /\ bs = [] /\ st = initial)
    \/ (exists user iso st1,
          current_user h = Some user
          /\ ESDate.toISOString (cutoff h days) = Some iso
          /\ error (respond h (daily_query user iso)) = None
          /\ events st = [Queried (daily_query user iso)]
          /\ fill_buckets (Z.to_nat days)
               (fold_left bump
                  (map utc_date (rows_of (data (respond h (daily_query user iso)))))
                  JS.empty)
               [] h st1 = (Returned bs, st)).
Proof.
  intros h days bs st.
  unfold getDailyDetections, run.
  unfold bind at 1. unfold getUser.
  destruct (current_user h) as [user|] eqn:Huser.
  - intros Hrun. right. revert Hrun.
    unfold bind at 1. unfold new_Date. unfold bind at 1. unfold local_zone.
    unfold bind at 1. rewrite toISOString_run.
    change (days_back (zone h) (ESDate.TimeClip (clock h (clock_reads initial))) days)
      with (cutoff h days).
    destruct (ESDate.toISOString (cutoff h days)) as [iso|] eqn:Eiso;
      [|discriminate].
    unfold bind at 1. unfold await. unfold bind at 1. unfold record.
    cbv beta iota.
    destruct (error (respond h (daily_query user iso))) as [e|] eqn:Eerr;
      [discriminate|].
    unfold bind at 1.
    destruct (tally_dates _ _ h _) as [[o|x] s1] eqn:Etally; [|discriminate].
    pose proof (tally_dates_state _ _ _ _ _ _ Etally) as Es. subst s1.
    apply tally_dates_returns in Etally. subst o.
    intros Hrun. exists user, iso. eexists.
    split; [reflexivity|]. split; [reflexivity|]. split; [exact Eerr|].
    split; [|exact Hrun].
    apply fill_buckets_events in Hrun. rewrite Hrun. reflexivity.
  - unfold ret. intros E. inversion E; subst. left. auto.
Qed.

(** When the buckets returned carry pairwise distinct dates, every count
    is a number and the counts add up to the number of retrieved rows whose
    UTC date is the date of a bucket; this is at most the number of
    retrieved rows. *)
Theorem daily_counts_sum :
  forall (h : Host) (days : Z) (buckets : list DailyDetection) (st : State),
    run (getDailyDetections days) h = (Returned buckets, st) ->
    NoDup (map date buckets) ->
    Forall (fun b => exists n, count b = JS.Prim (JS.Num n)) buckets
    /\ sum_counts buckets =
       Z.of_nat (List.length (filter (dated_in (map date buckets)) (retrieved h st)))
    /\ sum_counts buckets <= Z.of_nat (List.length (retrieved h st)).
Proof.
  intros h days buckets st Hrun Hnd.
  destruct (getDailyDetections_returns h days buckets st Hrun)
    as [[_ [-> ->]]|[user [iso [st1 [_ [_ [_ [Hev Hfill]]]]]]]].
  - split; [constructor|]. split; [reflexivity|]. simpl. lia.
  - unfold retrieved. rewrite Hev. cbn [flat_map]. rewrite app_nil_r.
    set (fetched := rows_of (data (respond h (daily_query user iso)))) in *.
    apply fill_buckets_returns in Hfill.
    destruct Hfill as [new [E [_ Hall]]]. simpl in E. subst new.
    assert (HD : Forall (fun d => JS.inherited d = false) (map utc_date fetched)).
    { apply Forall_forall. intros d Hd. apply in_map_iff in Hd.
      destruct Hd as [r [<- _]]. apply iso_date_not_inherited. }
    assert (Hread : Forall (fun b => count b =
                      JS.Prim (JS.Num (occurrences (date b) (map utc_date fetched))))
                    buckets).
    { revert Hall. apply Forall_impl. intros b [Hb ->].
      apply counter_read; assumption. }
    assert (Hsum : sum_counts buckets =
                   Z.of_nat (List.length (filter (dated_in (map date buckets)) fetched))).
    { rewrite (sum_counts_read _ _ Hread), (occurrences_sum _ _ Hnd).
      f_equal. unfold dated_in.
      clear. induction fetched as [|r l IH]; [reflexivity|].
      cbn [map filter]. fold (utc_date r).
      destruct (existsb (String.eqb (utc_date r)) (map date buckets));
        cbn [List.length]; rewrite IH; reflexivity. }
    split; [|split].
    + revert Hread. apply Forall_impl. intros b ->. eauto.
    + exact Hsum.
    + rewrite Hsum. apply inj_le. apply filter_length_le.
Qed.

Lemma daily_counts_sum_witness :
  sum_counts [ {| date := "2024-03-29"; count := JS.Prim (JS.Num 1) |};
               {| date := "2024-03-30"; count := JS.Prim (JS.Num 0) |};
               {| date := "2024-03-31"; count := JS.Prim (JS.Num 1) |} ] =
  Z.of_nat
    (List.length
       (filter (dated_in ["2024-03-29"; "2024-03-30"; "2024-03-31"])
          (retrieved utc_host
             {| clock_reads := 4;
                events := [Queried (daily_query alice "2024-03-28T23:30:00.000Z")] |}))).
Proof.
  refine (proj1 (proj2 (daily_counts_sum utc_host 3 _ _ _ _))).
  - vm_compute. reflexivity.
  - repeat constructor; simpl; intuition discriminate.
Defined.


(** With an identified caller, a call that returns has made one bucket per
    iteration of the loop: [days] of them ([0] for a negative [days]). *)
Lemma getDailyDetections_length :
  forall (h : Host) (days : Z) (bs : list DailyDetection) (st : State),
    current_user h <> None ->
    run (getDailyDetections days) h = (Returned bs, st) ->
    List.length bs = Z.to_nat days.
Proof.
  intros h days bs st Huser Hrun.
  destruct (getDailyDetections_returns h days bs st Hrun)
    as [[Hnone _]|[user [iso [st1 [_ [_ [_ [_ Hfill]]]]]]]]; [contradiction|].
  apply fill_buckets_returns in Hfill.
  destruct Hfill as [new [-> [Hlen _]]]. exact Hlen.
Qed.

(** ** On a host whose zone keeps one offset *)

Section FixedZone.

Variable h : Host.
Variable off : Z.
Hypothesis zone_fixed : zone h = ESDate.fixed_zone off.

(** Every reading of the clock falls on the same UTC day. *)
Variable today : Z.
Hypothesis one_day : forall k, ESDate.Day (clock h k) = today.

Lemma tally_dates_valid :
  forall (l : list MessageRow) (o : JS.Obj) (s : State),
    Forall (fun r => Z.abs (created_at r) <= 8640000000000000) l ->
    tally_dates l o h s = (Returned (fold_left bump (map utc_date l) o), s).
Proof.
  induction l as [|r l IH]; intros o s Hl; [reflexivity|].
  inversion Hl as [|r' l' Hr Hl']; subst.
  cbn [tally_dates map fold_left]. unfold bind.
  rewrite toISOString_run. unfold Date_of.
  rewrite (TimeClip_valid _ Hr).
  destruct (toISOString_cases (Some (created_at r)))
    as [[E _]|[t [iso [E [Eiso Ed]]]]]; [discriminate|].
  inversion E; subst t. rewrite Eiso, Ed. apply IH. exact Hl'.
Qed.

Lemma fill_buckets_fixed :
  forall (n : nat) (o : JS.Obj) (res : list DailyDetection) (s : State),
    (forall k i, 0 <= i < Z.of_nat n ->
                 Z.abs (clock h k - i * ESDate.msPerDay) <= 8640000000000000) ->
    fill_buckets n o res h s =
    (Returned
       (res ++ map (fun d => {| date := date_of_day d;
                                count := JS.or_zero (JS.get o (date_of_day d)) |})
                   (trailing_days today n))%list,
     {| clock_reads := clock_reads s + n; events := events s |}).
Proof.
  induction n as [|i IH]; intros o res s Hvalid.
  - simpl. unfold ret. rewrite app_nil_r, Nat.add_0_r.
    destruct s; reflexivity.
  - cbn [fill_buckets]. unfold bind at 1. unfold new_Date.
    unfold bind at 1. unfold local_zone. unfold bind at 1.
    rewrite toISOString_run, zone_fixed.
    set (now := clock h (clock_reads s)).
    assert (Hnow : Z.abs now <= 8640000000000000).
    { pose proof (Hvalid (clock_reads s) 0) as H. fold now in H.
      rewrite Z.mul_0_l, Z.sub_0_r in H. apply H. lia. }
    rewrite (TimeClip_valid _ Hnow), days_back_fixed.
    rewrite (TimeClip_valid (now - Z.of_nat i * ESDate.msPerDay))
      by (apply Hvalid; lia).
    destruct (toISOString_cases (Some (now - Z.of_nat i * ESDate.msPerDay)))
      as [[E _]|[t [iso [E [Eiso Ed]]]]]; [discriminate|].
    inversion E; subst t. rewrite Eiso, Ed.
    rewrite iso_date_Day, Day_back. unfold now. rewrite one_day.
    rewrite IH by (intros k j Hj; apply Hvalid; lia).
    cbn [trailing_days map clock_reads events].
    rewrite <- app_assoc. cbn [app]. f_equal. f_equal. lia.
Qed.

End FixedZone.

(** On a host whose zone keeps one offset from UTC, when the clock stays on
    one UTC day during the call, the dates involved are ones a [Date] can
    hold and the store answers, [getDailyDetections days] returns one bucket
    per UTC date from [today - (days - 1)] to [today], in ascending order,
    each with the number of retrieved rows of that date. *)
Lemma daily_detections_fixed_zone :
  forall (h : Host) (user : User) (off : Z) (days : Z),
    current_user h = Some user ->
    zone h = ESDate.fixed_zone off ->
    (forall k, ESDate.Day (clock h k) = ESDate.Day (clock h 0)) ->
    0 <= days ->
    (forall k i, 0 <= i <= days ->
                 Z.abs (clock h k - i * ESDate.msPerDay) <= 8640000000000000) ->
    (forall q, error (respond h q) = None) ->
    (forall q, Forall (fun r => Z.abs (created_at r) <= 8640000000000000)
                      (rows_of (data (respond h q)))) ->
    exists st,
      run (getDailyDetections days) h =
      (Returned
         (map (fun d => {| date := date_of_day d;
                           count := JS.Prim (JS.Num (occurrences (date_of_day d)
                                                       (map utc_date (retrieved h st)))) |})
              (trailing_days (ESDate.Day (clock h 0)) (Z.to_nat days))),
       st)
      /\ clock_reads st = S (Z.to_nat days)
      /\ List.length (trailing_days (ESDate.Day (clock h 0)) (Z.to_nat days))
         = Z.to_nat days.
Proof.
  intros h user off days Huser Hzone Hday Hdays Hvalid Hok Hrows.
  unfold getDailyDetections, run.
  unfold bind at 1. unfold getUser. rewrite Huser.
  unfold bind at 1. unfold new_Date. unfold bind at 1. unfold local_zone.
  unfold bind at 1. rewrite toISOString_run, Hzone.
  cbn [clock_reads initial].
  assert (Hnow : Z.abs (clock h 0) <= 8640000000000000).
  { pose proof (Hvalid 0%nat 0) as H.
    rewrite Z.mul_0_l, Z.sub_0_r in H. apply H. lia. }
  rewrite (TimeClip_valid _ Hnow), days_back_fixed.
  rewrite (TimeClip_valid (clock h 0 - days * ESDate.msPerDay))
    by (apply Hvalid; lia).
  destruct (toISOString_cases (Some (clock h 0 - days * ESDate.msPerDay)))
    as [[E _]|[t [iso [_ [Eiso _]]]]]; [discriminate|].
  rewrite Eiso.
  unfold bind at 1. unfold await. unfold bind at 1. unfold record.
  cbv beta iota. rewrite Hok.
  unfold bind at 1.
  rewrite (tally_dates_valid h _ _ _ (Hrows _)).
  rewrite (fill_buckets_fixed h off Hzone _ Hday)
    by (intros k i Hi; apply Hvalid; lia).
  eexists. split; [|split].
  - f_equal. f_equal. cbn [app]. apply map_ext. intros d. f_equal.
    unfold retrieved. cbn [events app initial flat_map]. rewrite app_nil_r.
    apply counter_read.
    + apply Forall_forall. intros x Hx. apply in_map_iff in Hx.
      destruct Hx as [r [<- _]]. apply iso_date_not_inherited.
    + apply iso_date_not_inherited.
  - cbn [clock_reads]. lia.
  - clear. induction (Z.to_nat days) as [|n IH]; simpl; congruence.
Qed.

(** The dates expected are pairwise distinct when the days involved are
    ones a [Date] can hold. *)
Lemma expected_dates_NoDup :
  forall (h : Host) (days : Z),
    0 <= days ->
    (forall i, 0 <= i <= days ->
               Z.abs (clock h 0 - i * ESDate.msPerDay) <= 8640000000000000) ->
    NoDup (expected_dates h days).
Proof.
  intros h days Hdays Hvalid. unfold expected_dates.
  assert (B : forall i, 0 <= i <= days ->
                        Z.abs (ESDate.Day (clock h 0) - i) <= 100000000).
  { intros i Hi. specialize (Hvalid i Hi).
    rewrite <- Day_back. unfold ESDate.Day, ESDate.msPerDay in *.
    Z.div_mod_to_equations. lia. }
  apply trailing_dates_NoDup.
  - specialize (B 0). rewrite Z.sub_0_r in B. apply B. lia.
  - rewrite Z2Nat.id by lia. apply B. lia.
Qed.

(** The hypotheses of [daily_detections_fixed_zone] hold on a host that
    runs in UTC: day 19813 is 2024-03-31. *)
Example daily_detections_utc_host :
  exists st,
    run (getDailyDetections 3) utc_host =
    (Returned
       (map (fun d => {| date := date_of_day d;
                         count := JS.Prim (JS.Num (occurrences (date_of_day d)
                                                     (map utc_date (retrieved utc_host st)))) |})
            [19811; 19812; 19813]),
     st)
    /\ clock_reads st = 4%nat.
Proof.
  destruct (daily_detections_fixed_zone utc_host alice 0 3) as [st [E [R _]]];
    try reflexivity.
  - lia.
  - intros k i Hi. unfold utc_host, host, clock, late_evening, ESDate.msPerDay. lia.
  - intros q. repeat constructor;
      unfold at_instant, created_at, late_evening, ESDate.msPerDay; lia.
  - exists st. split; [exact E|exact R].
Qed.

(** ** Across a change of the zone's offset *)

(** C1: on a browser that runs on Central European time, at
    2024-03-31T23:30:00Z (01:30 local time, the night after the clocks went
    forward), [getDailyDetections 3] returns the buckets of 2024-03-30,
    2024-03-31 and 2024-03-31 again, where the three UTC dates that end
    today are 2024-03-29, 2024-03-30 and 2024-03-31; the detection of
    2024-03-29 is in no bucket and the one of 2024-03-31 is counted twice.
    On a host that runs in UTC the same instant and rows give the three
    expected buckets. *)
Theorem daily_detections_after_clock_change :
  fst (run (getDailyDetections 3) berlin_host) =
  Returned [ {| date := "2024-03-30"; count := JS.Prim (JS.Num 0) |};
             {| date := "2024-03-31"; count := JS.Prim (JS.Num 1) |};
             {| date := "2024-03-31"; count := JS.Prim (JS.Num 1) |} ]
  /\ expected_dates berlin_host 3 = ["2024-03-29"; "2024-03-30"; "2024-03-31"]
  /\ map utc_date (retrieved berlin_host
                     {| clock_reads := 4;
                        events := [Queried (daily_query alice "2024-03-29T00:30:00.000Z")] |})
     = ["2024-03-31"; "2024-03-29"]
  /\ fst (run (getDailyDetections 3) utc_host) =
     Returned [ {| date := "2024-03-29"; count := JS.Prim (JS.Num 1) |};
                {| date := "2024-03-30"; count := JS.Prim (JS.Num 0) |};
                {| date := "2024-03-31"; count := JS.Prim (JS.Num 1) |} ].
Proof.
  repeat split; vm_compute; reflexivity.
Qed.

(* ================================================================== *)
(** * Further properties *)

From Stdlib Require Import Permutation Sorted.

(** ** [getScamTypeDistribution] with labels of any kind *)

Section EntriesOrder.

Lemma insert_by_index_Permutation :
  forall n e l, Permutation (JS.insert_by_index n e l) ((n, e) :: l).
Proof.
  intros n e. induction l as [|[m e'] l IH]; simpl; [reflexivity|].
  destruct (n <? m); [reflexivity|].
  rewrite IH. apply perm_swap.
Qed.

Lemma index_entries_Permutation :
  forall o : JS.Obj,
    Permutation (map snd (JS.index_entries o))
                (filter (fun e => JS.is_array_index (fst e)) o).
Proof.
  induction o as [|[k v] o IH]; simpl; [reflexivity|].
  unfold JS.is_array_index at 1. simpl.
  destruct (JS.array_index k) as [n|]; [|exact IH].
  rewrite insert_by_index_Permutation. simpl. apply perm_skip. exact IH.
Qed.

Lemma filter_split_Permutation :
  forall (A : Type) (p : A -> bool) (l : list A),
    Permutation (filter p l ++ filter (fun x => negb (p x)) l) l.
Proof.
  intros A p. induction l as [|a l IH]; simpl; [reflexivity|].
  destruct (p a); simpl.
  - apply perm_skip. exact IH.
  - rewrite <- Permutation_middle. apply perm_skip. exact IH.
Qed.

(** [Object.entries] lists every own property once. *)
Lemma entries_Permutation :
  forall o : JS.Obj, Permutation (JS.entries o) o.
Proof.
  intros o. unfold JS.entries, JS.named_entries.
  rewrite index_entries_Permutation.
  apply (filter_split_Permutation _ (fun e => JS.is_array_index (fst e))).
Qed.

Lemma insert_by_index_sorted :
  forall n e l,
    StronglySorted Z.le (map fst l) ->
    StronglySorted Z.le (map fst (JS.insert_by_index n e l)).
Proof.
  intros n e. induction l as [|[m e'] l IH]; intros Hs; simpl.
  - constructor; constructor.
  - destruct (Z.ltb_spec n m); simpl.
    + constructor; [exact Hs|].
      simpl in Hs. apply StronglySorted_inv in Hs. destruct Hs as [_ Hm].
      constructor; [lia|]. revert Hm. apply Forall_impl. intros x Hx. lia.
    + simpl in Hs. apply StronglySorted_inv in Hs. destruct Hs as [Hl Hm].
      constructor; [apply IH; exact Hl|].
      rewrite Forall_forall. intros x Hx. apply in_map_iff in Hx.
      destruct Hx as [[x' ex] [<- Hx]]. simpl.
      apply insert_by_index_In in Hx. destruct Hx as [Hx|Hx].
      * inversion Hx; subst. lia.
      * rewrite Forall_forall in Hm. apply Hm.
        apply in_map_iff. exists (x', ex). auto.
Qed.

(** The array-index entries come out in ascending order of their index. *)
Lemma index_entries_sorted :
  forall o : JS.Obj, StronglySorted Z.le (map fst (JS.index_entries o)).
Proof.
  induction o as [|[k v] o IH]; simpl; [constructor|].
  destruct (JS.array_index k); [apply insert_by_index_sorted|]; exact IH.
Qed.

Lemma index_entries_indexed :
  forall (o : JS.Obj) n k v,
    In (n, (k, v)) (JS.index_entries o) -> JS.array_index k = Some n.
Proof.
  induction o as [|[k' v'] o IH]; intros n k v; simpl; [tauto|].
  destruct (JS.array_index k') as [m|] eqn:E; [|apply IH].
  intros H. apply insert_by_index_In in H. destruct H as [H|H].
  - inversion H; subst. exact E.
  - apply (IH _ _ _ H).
Qed.

End EntriesOrder.

Lemma total_Permutation :
  forall l l' : list ScamTypeDistribution,
    Permutation l l' -> ExpectedMore.total l = ExpectedMore.total l'.
Proof.
  intros l l' H. induction H as [|b l l' _ IH|a b l|l1 l2 l3 _ IH1 _ IH2];
    simpl.
  - reflexivity.
  - rewrite IH. reflexivity.
  - destruct (type_count a), (type_count b); lia.
  - congruence.
Qed.

Lemma total_by_first_occurrence :
  forall L : list string,
    ExpectedMore.total (by_first_occurrence L) = Z.of_nat (List.length L).
Proof.
  intros L. unfold by_first_occurrence.
  assert (E : forall K,
             ExpectedMore.total
               (map (fun l => {| type := l; type_count := JS.Num (occurrences l L) |}) K)
             = fold_right (fun k acc => occurrences k L + acc) 0 K).
  { induction K as [|k K IH]; simpl; [reflexivity|]. rewrite IH. reflexivity. }
  rewrite E, (occurrences_sum _ _ (first_occurrences_NoDup L)).
  f_equal. f_equal. apply filter_keeps_all.
  intros x Hx. apply existsb_exists. exists x. split.
  - apply first_occurrences_In. exact Hx.
  - apply String.eqb_refl.
Qed.

(** What [getScamTypeDistribution] returns when its request succeeds. *)
Lemma getScamTypeDistribution_returns :
  forall (h : Host) (user : User),
    current_user h = Some user ->
    error (respond h (scam_type_query user)) = None ->
    run getScamTypeDistribution h =
    (Returned (map (fun e => {| type := fst e; type_count := snd e |})
                   (JS.entries
                      (fold_left bump
                         (counted_labels
                            (rows_of (data (respond h (scam_type_query user)))))
                         JS.empty))),
     {| clock_reads := 0; events := [Queried (scam_type_query user)] |}).
Proof.
  intros h user Huser Hok.
  unfold getScamTypeDistribution. effects. rewrite Huser, Hok. simpl.
  rewrite tally_counted_labels. reflexivity.
Qed.

(** X: whatever the labels are, as long as none is a name inherited from
    [Object.prototype], the result holds exactly one pair per distinct
    label with the number of its occurrences (in some order), and the
    counts add up to the number of counted rows. *)
Theorem scam_types_counts_in_any_order :
  forall (h : Host) (user : User),
    current_user h = Some user ->
    error (respond h (scam_type_query user)) = None ->
    let labels := counted_labels (rows_of (data (respond h (scam_type_query user)))) in
    Forall (fun k => JS.inherited k = false) labels ->
    exists result,
      fst (run getScamTypeDistribution h) = Returned result
      /\ Permutation result (by_first_occurrence labels)
      /\ NoDup (map type result)
      /\ ExpectedMore.total result = Z.of_nat (List.length labels).
Proof.
  intros h user Huser Hok labels Hlab.
  rewrite (getScamTypeDistribution_returns h user Huser Hok). fold labels.
  rewrite (bump_labels labels Hlab). eexists. split; [reflexivity|].
  assert (P : Permutation
                (map (fun e => {| type := fst e; type_count := snd e |})
                     (JS.entries
                        (map (fun l => (l, JS.Num (occurrences l labels)))
                             (first_occurrences labels))))
                (by_first_occurrence labels)).
  { rewrite entries_Permutation. unfold by_first_occurrence.
    rewrite map_map. reflexivity. }
  split; [exact P|]. split.
  - apply (Permutation_NoDup (l := map type (by_first_occurrence labels))).
    + apply Permutation_map. symmetry. exact P.
    + unfold by_first_occurrence. rewrite map_map. simpl. rewrite map_id.
      apply first_occurrences_NoDup.
  - rewrite (total_Permutation _ _ P). apply total_by_first_occurrence.
Qed.

Lemma scam_types_counts_in_any_order_witness :
  exists result,
    fst (run getScamTypeDistribution (labels_host ["b"; "10"; "9"; "b"])) =
    Returned result
    /\ Permutation result (by_first_occurrence ["b"; "10"; "9"; "b"])
    /\ NoDup (map type result)
    /\ ExpectedMore.total result = 4.
Proof.
  apply (scam_types_counts_in_any_order
           (labels_host ["b"; "10"; "9"; "b"]) alice eq_refl eq_refl).
  repeat constructor.
Defined.

(** ** Labels that are names of [Object.prototype] *)

Section PrototypeNames.

Lemma own_replace_other :
  forall (o : JS.Obj) (k x : string) (v : JS.Val),
    k <> x -> JS.own (JS.replace o k v) x = JS.own o x.
Proof.
  induction o as [|[k' v'] o IH]; intros k x v Hne; simpl; [reflexivity|].
  destruct (String.eqb_spec k' k) as [->|Hk]; simpl.
  - destruct (String.eqb_spec k x); [contradiction|reflexivity].
  - destruct (String.eqb_spec k' x); [reflexivity|]. apply IH. exact Hne.
Qed.

Lemma own_app_other :
  forall (o : JS.Obj) (k x : string) (v : JS.Val),
    k <> x -> JS.own (o ++ [(k, v)])%list x = JS.own o x.
Proof.
  induction o as [|[k' v'] o IH]; intros k x v Hne; simpl.
  - destruct (String.eqb_spec k x); [contradiction|reflexivity].
  - destruct (String.eqb_spec k' x); [reflexivity|]. apply IH. exact Hne.
Qed.

(** An assignment leaves the other properties as they are. *)
Lemma own_set_other :
  forall (o : JS.Obj) (k x : string) (v : JS.Val),
    k <> x -> JS.own (JS.set o k v) x = JS.own o x.
Proof.
  intros o k x v Hne. unfold JS.set.
  destruct (JS.own o k).
  - apply own_replace_other. exact Hne.
  - destruct (String.eqb k "__proto__"); [reflexivity|].
    apply own_app_other. exact Hne.
Qed.

Lemma own_replace_same :
  forall (o : JS.Obj) (k : string) (v w : JS.Val),
    JS.own o k = Some w -> JS.own (JS.replace o k v) k = Some v.
Proof.
  induction o as [|[k' v'] o IH]; intros k v w; simpl; [discriminate|].
  destruct (String.eqb_spec k' k) as [->|Hk]; simpl.
  - rewrite String.eqb_refl. reflexivity.
  - destruct (String.eqb_spec k' k); [contradiction|]. apply IH.
Qed.

Lemma own_app_same :
  forall (o : JS.Obj) (k : string) (v : JS.Val),
    JS.own o k = None -> JS.own (o ++ [(k, v)])%list k = Some v.
Proof.
  induction o as [|[k' v'] o IH]; intros k v; simpl.
  - rewrite String.eqb_refl. reflexivity.
  - destruct (String.eqb_spec k' k); [discriminate|]. apply IH.
Qed.

(** [__proto__] never becomes an own property of the counter object. *)
Lemma bump_keeps_proto_out :
  forall (o : JS.Obj) (k : string),
    JS.own o "__proto__" = None -> JS.own (bump o k) "__proto__" = None.
Proof.
  intros o k Ho. unfold bump.
  destruct (String.eqb_spec k "__proto__") as [->|Hne].
  - unfold JS.set. rewrite Ho. simpl. exact Ho.
  - rewrite own_set_other by exact Hne. exact Ho.
Qed.

Lemma bump_proto :
  forall o : JS.Obj, JS.own o "__proto__" = None -> bump o "__proto__" = o.
Proof.
  intros o Ho. unfold bump, JS.get, JS.set. rewrite Ho. reflexivity.
Qed.

Lemma tally_keeps_proto_out :
  forall (L : list string) (o : JS.Obj),
    JS.own o "__proto__" = None ->
    JS.own (fold_left bump L o) "__proto__" = None.
Proof.
  induction L as [|k L IH]; intros o Ho; simpl; [exact Ho|].
  apply IH. apply bump_keeps_proto_out. exact Ho.
Qed.

Lemma own_In :
  forall (o : JS.Obj) (k : string),
    In k (map fst o) -> JS.own o k <> None.
Proof.
  induction o as [|[k' v'] o IH]; intros k; simpl; [tauto|].
  destruct (String.eqb_spec k' k); [discriminate|].
  intros [H|H]; [contradiction|]. apply IH. exact H.
Qed.

(** Once the slot of an inherited name holds a string, it keeps holding
    one. *)
Lemma bump_keeps_text :
  forall (o : JS.Obj) (k x : string),
    JS.own o x = Some JS.Text -> JS.own (bump o k) x = Some JS.Text.
Proof.
  intros o k x Hx. unfold bump.
  destruct (String.eqb_spec k x) as [->|Hne].
  - unfold JS.get, JS.set. rewrite Hx. simpl.
    apply (own_replace_same _ _ _ _ Hx).
  - rewrite own_set_other by exact Hne. exact Hx.
Qed.

Lemma tally_keeps_text :
  forall (L : list string) (o : JS.Obj) (x : string),
    JS.own o x = Some JS.Text -> JS.own (fold_left bump L o) x = Some JS.Text.
Proof.
  induction L as [|k L IH]; intros o x Hx; simpl; [exact Hx|].
  apply IH. apply bump_keeps_text. exact Hx.
Qed.

Lemma own_Some_In :
  forall (o : JS.Obj) (k : string) (v : JS.Val),
    JS.own o k = Some v -> In (k, v) o.
Proof.
  induction o as [|[k' v'] o IH]; intros k v; simpl; [discriminate|].
  destruct (String.eqb_spec k' k) as [->|Hne].
  - intros E. inversion E; subst. left. reflexivity.
  - intros E. right. apply IH. exact E.
Qed.

(** The slot of an inherited name (other than [__proto__]) never holds a
    number. *)
Lemma tally_inherited_no_number :
  forall (L : list string) (x : string) (n : Z),
    JS.inherited x = true -> x <> "__proto__" ->
    JS.own (fold_left bump L JS.empty) x <> Some (JS.Num n).
Proof.
  intros L x n Hinh Hnp. revert n.
  induction L as [|k L IH] using rev_ind; intros n; [discriminate|].
  rewrite fold_left_app. cbn [fold_left].
  set (o := fold_left bump L JS.empty) in *.
  destruct (String.eqb_spec k x) as [->|Hne].
  - unfold bump, JS.get, JS.set.
    destruct (JS.own o x) as [[m|]|] eqn:Eo.
    + exfalso. exact (IH m eq_refl).
    + simpl. rewrite (own_replace_same _ _ _ _ Eo). discriminate.
    + rewrite Hinh. simpl.
      destruct (String.eqb_spec x "__proto__"); [contradiction|].
      rewrite (own_app_same _ _ _ Eo). discriminate.
  - unfold bump. rewrite own_set_other by exact Hne. apply IH.
Qed.

(** Once an inherited name (other than [__proto__]) has been counted, its
    slot holds a string. *)
Lemma tally_inherited_text :
  forall (L : list string) (x : string),
    JS.inherited x = true -> x <> "__proto__" -> In x L ->
    JS.own (fold_left bump L JS.empty) x = Some JS.Text.
Proof.
  intros L x Hinh Hnp Hin.
  apply in_split in Hin. destruct Hin as [L1 [L2 ->]].
  rewrite fold_left_app. cbn [fold_left].
  apply tally_keeps_text.
  pose proof (tally_inherited_no_number L1 x) as Hno.
  set (o := fold_left bump L1 JS.empty) in *.
  unfold bump, JS.get, JS.set.
  destruct (JS.own o x) as [[n|]|] eqn:Eo.
  - exfalso. exact (Hno n Hinh Hnp eq_refl).
  - simpl. apply (own_replace_same _ _ _ _ Eo).
  - rewrite Hinh. simpl.
    destruct (String.eqb_spec x "__proto__"); [contradiction|].
    apply (own_app_same _ _ _ Eo).
Qed.

End PrototypeNames.

(** X: a row labelled [__proto__] is skipped like a row without label:
    taking it out of the retrieved rows changes nothing, and no bucket
    carries that label. *)
Theorem proto_label_is_dropped :
  forall (h : Host) (before after : list MessageRow) (r : MessageRow)
         (buckets : list ScamTypeDistribution) (st : State),
    scam_type r = Some "__proto__" ->
    run getScamTypeDistribution h = (Returned buckets, st) ->
    tally_scam_types (before ++ r :: after)%list =
    tally_scam_types (before ++ after)%list
    /\ forall b, In b buckets -> type b <> "__proto__".
Proof.
  intros h before after r buckets st Hr Hrun. split.
  - unfold tally_scam_types. rewrite !fold_left_app. cbn [fold_left].
    replace (count_scam_type (fold_left count_scam_type before JS.empty) r)
      with (fold_left count_scam_type before JS.empty); [reflexivity|].
    unfold count_scam_type at 2. rewrite Hr. cbn [truthy property_key].
    change (negb ("__proto__" =? "")%string) with true. cbv iota.
    symmetry. apply bump_proto.
    change (fold_left count_scam_type before JS.empty)
      with (tally_scam_types before).
    rewrite tally_counted_labels. apply tally_keeps_proto_out. reflexivity.
  - revert Hrun. unfold getScamTypeDistribution. effects.
    destruct (current_user h) as [user|].
    + destruct (error (respond h (scam_type_query user))); [discriminate|].
      intros E. inversion E; subst. clear E.
      intros b Hb. apply in_map_iff in Hb. destruct Hb as [e [<- He]].
      simpl. apply entries_In in He. intros Hp.
      assert (Hk : In "__proto__"
                      (map fst (tally_scam_types
                                  (rows_of (data (respond h (scam_type_query user)))))))
        by (rewrite <- Hp; apply in_map; exact He).
      apply own_In in Hk. apply Hk.
      rewrite tally_counted_labels. apply tally_keeps_proto_out. reflexivity.
    + intros E. inversion E; subst. intros b [].
Qed.

Lemma proto_label_is_dropped_witness :
  tally_scam_types [labelled "phishing"; labelled "__proto__"; labelled "phishing"] =
  tally_scam_types [labelled "phishing"; labelled "phishing"]
  /\ forall b,
       In b [ {| type := "phishing"; type_count := JS.Num 2 |} ] ->
       type b <> "__proto__".
Proof.
  apply (proto_label_is_dropped
           (labels_host ["phishing"; "__proto__"; "phishing"])
           [labelled "phishing"] [labelled "phishing"] (labelled "__proto__")
           [ {| type := "phishing"; type_count := JS.Num 2 |} ]
           {| clock_reads := 0; events := [Queried (scam_type_query alice)] |}).
  - reflexivity.
  - vm_compute. reflexivity.
Defined.

(** X: a counted label that is another name of [Object.prototype] (such as
    [constructor] or [toString]) gets a bucket whose count is a string, not
    a number, however often the label occurs. *)
Theorem inherited_label_count_is_text :
  forall (h : Host) (user : User) (x : string),
    current_user h = Some user ->
    error (respond h (scam_type_query user)) = None ->
    JS.inherited x = true -> x <> "__proto__" ->
    In x (counted_labels (rows_of (data (respond h (scam_type_query user))))) ->
    exists result,
      fst (run getScamTypeDistribution h) = Returned result
      /\ In {| type := x; type_count := JS.Text |} result.
Proof.
  intros h user x Huser Hok Hinh Hnp Hin.
  rewrite (getScamTypeDistribution_returns h user Huser Hok).
  set (L := counted_labels (rows_of (data (respond h (scam_type_query user))))) in *.
  pose proof (tally_inherited_text L x Hinh Hnp Hin) as Hown.
  eexists. split; [reflexivity|].
  apply in_map_iff. exists (x, JS.Text). split; [reflexivity|].
  apply (Permutation_in _ (Permutation_sym (entries_Permutation _))).
  apply own_Some_In. exact Hown.
Qed.

Lemma inherited_label_count_is_text_witness :
  exists result,
    fst (run getScamTypeDistribution
             (labels_host ["phishing"; "constructor"; "constructor"])) =
    Returned result
    /\ In {| type := "constructor"; type_count := JS.Text |} result.
Proof.
  apply (inherited_label_count_is_text
           (labels_host ["phishing"; "constructor"; "constructor"]) alice
           "constructor" eq_refl eq_refl eq_refl).
  - discriminate.
  - simpl. tauto.
Defined.

(** ** [getDailyDetections]: the shape of a call *)

(** Each iteration of the loop reads the clock once. *)
Lemma fill_buckets_reads :
  forall (n : nat) (o : JS.Obj) (res : list DailyDetection)
         (h : Host) (s : State) bs s',
    fill_buckets n o res h s = (Returned bs, s') ->
    clock_reads s' = (clock_reads s + n)%nat.
Proof.
  induction n as [|i IH]; intros o res h s bs s'.
  - simpl. unfold ret. intros E. inversion E; subst. lia.
  - cbn [fill_buckets]. unfold bind at 1. unfold new_Date.
    unfold bind at 1. unfold local_zone. unfold bind at 1.
    rewrite toISOString_run.
    destruct (ESDate.toISOString _); [|discriminate].
    intros Hrun. apply IH in Hrun. cbn [clock_reads] in Hrun. lia.
Qed.

(** X: with an identified caller, a call of [getDailyDetections days] that
    returns has made [days] buckets (none for [days <= 0]), has sent one
    request and has read the clock [1 + days] times, whatever the time
    zone. *)
Theorem daily_detections_shape :
  forall (h : Host) (days : Z) (buckets : list DailyDetection) (st : State),
    current_user h <> None ->
    run (getDailyDetections days) h = (Returned buckets, st) ->
    List.length buckets = Z.to_nat days
    /\ (days <= 0 -> buckets = [])
    /\ (exists q, queries st = [q])
    /\ clock_reads st = S (Z.to_nat days).
Proof.
  intros h days buckets st Huser Hrun.
  destruct (getDailyDetections_returns h days buckets st Hrun)
    as [[Hnone _]|[user [iso [st1 [_ [_ [_ [Hev Hfill]]]]]]]]; [contradiction|].
  pose proof (fill_buckets_returns _ _ _ _ _ _ _ Hfill) as [new [-> [Hlen _]]].
  cbn [app] in *.
  split; [exact Hlen|]. split; [|split].
  - intros Hd. destruct new as [|b new]; [reflexivity|].
    simpl in Hlen. lia.
  - exists (daily_query user iso). unfold queries. rewrite Hev. reflexivity.
  - pose proof (fill_buckets_reads _ _ _ _ _ _ _ Hfill) as Hreads.
    revert Hrun Hreads. unfold getDailyDetections, run.
    unfold bind at 1. unfold getUser.
    destruct (current_user h) as [u|]; [|contradiction].
    unfold bind at 1. unfold new_Date. unfold bind at 1. unfold local_zone.
    unfold bind at 1. rewrite toISOString_run.
    destruct (ESDate.toISOString _) as [iso'|]; [|discriminate].
    unfold bind at 1. unfold await. unfold bind at 1. unfold record.
    cbv beta iota.
    destruct (error (respond h (daily_query u iso'))); [discriminate|].
    unfold bind at 1.
    destruct (tally_dates _ _ h _) as [[o|x] s1] eqn:Etally; [|discriminate].
    apply tally_dates_state in Etally. subst s1.
    intros Hrun _. apply fill_buckets_reads in Hrun.
    cbn [clock_reads initial] in Hrun. lia.
Qed.

Lemma daily_detections_shape_witness :
  let buckets := [ {| date := "2024-03-30"; count := JS.Prim (JS.Num 0) |};
                   {| date := "2024-03-31"; count := JS.Prim (JS.Num 1) |};
                   {| date := "2024-03-31"; count := JS.Prim (JS.Num 1) |} ] in
  let st := {| clock_reads := 4;
               events := [Queried (daily_query alice "2024-03-29T00:30:00.000Z")] |} in
  List.length buckets = Z.to_nat 3
  /\ (3 <= 0 -> buckets = [])
  /\ (exists q, queries st = [q])
  /\ clock_reads st = S (Z.to_nat 3).
Proof.
  intros buckets st.
  apply (daily_detections_shape berlin_host 3 buckets st).
  - discriminate.
  - vm_compute. reflexivity.
Defined.

(** ** [getDailyDetections]: the keys of the per-date counts *)

Lemma valid_day :
  forall t : Z,
    Z.abs t <= 8640000000000000 -> Z.abs (ESDate.Day t) <= 100000000.
Proof.
  intros t Ht. unfold ESDate.Day, ESDate.msPerDay.
  Z.div_mod_to_equations. lia.
Qed.

(** Two instants a [Date] can hold have the same ISO date exactly when
    they fall on the same UTC day. *)
Lemma iso_date_same_day :
  forall t1 t2 : Z,
    Z.abs t1 <= 8640000000000000 -> Z.abs t2 <= 8640000000000000 ->
    (ESDate.iso_date t1 = ESDate.iso_date t2 <-> ESDate.Day t1 = ESDate.Day t2).
Proof.
  intros t1 t2 H1 H2. rewrite !iso_date_Day. split.
  - apply date_of_day_inj; apply valid_day; assumption.
  - intros ->. reflexivity.
Qed.

Lemma occurrences_same_day :
  forall (l : list MessageRow) (t : Z),
    Forall (fun r => Z.abs (created_at r) <= 8640000000000000) l ->
    Z.abs t <= 8640000000000000 ->
    occurrences (ESDate.iso_date t) (map utc_date l) =
    Z.of_nat (List.length
                (filter (fun r => ESDate.Day (created_at r) =? ESDate.Day t) l)).
Proof.
  intros l t Hl Ht. unfold occurrences. f_equal.
  induction Hl as [|r l Hr _ IH]; [reflexivity|].
  cbn [map count_occ filter]. unfold utc_date at 1.
  pose proof (iso_date_same_day (created_at r) t Hr Ht) as Hiff.
  destruct (string_dec (ESDate.iso_date (created_at r)) (ESDate.iso_date t)) as [E|E].
  - apply Hiff in E. rewrite E, Z.eqb_refl. cbn [List.length]. rewrite IH. reflexivity.
  - destruct (Z.eqb_spec (ESDate.Day (created_at r)) (ESDate.Day t)) as [E'|_].
    + exfalso. apply E. apply Hiff. exact E'.
    + exact IH.
Qed.

(** X: after the [forEach] over rows with valid timestamps, the count read
    back under the date of an instant is the number of rows that fall on
    the same UTC day as that instant: rows of one UTC day share a key, rows
    of different days never do. *)
Theorem daily_counts_per_utc_day :
  forall (h : Host) (s : State) (l : list MessageRow) (t : Z),
    Forall (fun r => Z.abs (created_at r) <= 8640000000000000) l ->
    Z.abs t <= 8640000000000000 ->
    exists detectionsByDate,
      tally_dates l JS.empty h s = (Returned detectionsByDate, s)
      /\ JS.or_zero (JS.get detectionsByDate (ESDate.iso_date t)) =
         JS.Prim (JS.Num (Z.of_nat
           (List.length
              (filter (fun r => ESDate.Day (created_at r) =? ESDate.Day t) l)))).
Proof.
  intros h s l t Hl Ht.
  destruct (tally_dates l JS.empty h s) as [[o|x] s1] eqn:E.
  - pose proof (tally_dates_state _ _ _ _ _ _ E) as ->.
    apply tally_dates_returns in E. subst o.
    eexists. split; [reflexivity|].
    rewrite counter_read.
    + rewrite (occurrences_same_day l t Hl Ht). reflexivity.
    + apply Forall_forall. intros d Hd. apply in_map_iff in Hd.
      destruct Hd as [r [<- _]]. apply iso_date_not_inherited.
    + apply iso_date_not_inherited.
  - exfalso. revert E. clear -Hl.
    generalize JS.empty as o. induction Hl as [|r l Hr _ IH]; intros o.
    + discriminate.
    + cbn [tally_dates]. unfold bind. rewrite toISOString_run.
      unfold Date_of. rewrite (TimeClip_valid _ Hr).
      destruct (toISOString_cases (Some (created_at r)))
        as [[E _]|[t [iso [_ [Eiso _]]]]]; [discriminate|].
      rewrite Eiso. apply IH.
Qed.

Lemma daily_counts_per_utc_day_witness :
  exists detectionsByDate,
    tally_dates [at_instant late_evening; at_instant noon;
                 at_instant (noon - ESDate.msPerDay)]
                JS.empty utc_host initial = (Returned detectionsByDate, initial)
    /\ JS.or_zero (JS.get detectionsByDate (ESDate.iso_date noon)) =
       JS.Prim (JS.Num (Z.of_nat
         (List.length
            (filter (fun r => ESDate.Day (created_at r) =? ESDate.Day noon)
                    [at_instant late_evening; at_instant noon;
                     at_instant (noon - ESDate.msPerDay)])))).
Proof.
  apply (daily_counts_per_utc_day utc_host initial).
  - repeat constructor;
      unfold at_instant, created_at, late_evening, noon, ESDate.msPerDay; lia.
  - unfold noon. lia.
Defined.

(** ** [getDailyDetections] where the zone keeps one offset *)



(** X: on such a host, when the instant [days] times 24 hours before now
    is one a [Date] cannot hold, the call throws a [RangeError] before any
    request is sent. *)
Theorem daily_detections_cutoff_out_of_range :
  forall (h : Host) (user : User) (off : Z) (days : Z),
    current_user h = Some user ->
    zone h = ESDate.fixed_zone off ->
    Z.abs (clock h 0) <= 8640000000000000 ->
    8640000000000000 < Z.abs (clock h 0 - days * ESDate.msPerDay) ->
    run (getDailyDetections days) h =
    (Thrown RangeError, {| clock_reads := 1; events := [] |}).
Proof.
  intros h user off days Huser Hzone Hnow Hout.
  unfold getDailyDetections, run.
  unfold bind at 1. unfold getUser. rewrite Huser.
  unfold bind at 1. unfold new_Date. unfold bind at 1. unfold local_zone.
  unfold bind at 1. rewrite toISOString_run, Hzone.
  cbn [clock_reads initial events].
  rewrite (TimeClip_valid _ Hnow), days_back_fixed.
  unfold ESDate.TimeClip.
  destruct (Z.ltb_spec 8640000000000000
              (Z.abs (clock h 0 - days * ESDate.msPerDay))); [|lia].
  reflexivity.
Qed.

Lemma daily_detections_cutoff_out_of_range_witness :
  run (getDailyDetections 200000000) utc_host =
  (Thrown RangeError, {| clock_reads := 1; events := [] |}).
Proof.
  apply (daily_detections_cutoff_out_of_range utc_host alice 0 200000000).
  - reflexivity.
  - reflexivity.
  - unfold utc_host, host, clock, late_evening. lia.
  - unfold utc_host, host, clock, late_evening, ESDate.msPerDay. lia.
Defined.

(** ** The counters and [getStats] *)

(** X: with no identified caller, [getScamTypeDistribution] returns the
    empty array and the two counters return 0; none sends a request. *)
Theorem no_caller_no_request :
  forall h : Host,
    current_user h = None ->
    run getScamTypeDistribution h = (Returned [], initial)
    /\ run Counts.getActiveConversationsCount h = (Returned 0, initial)
    /\ run Counts.getIntelligenceCount h = (Returned 0, initial).
Proof.
  intros h Hnone.
  unfold getScamTypeDistribution, Counts.getActiveConversationsCount,
    Counts.getIntelligenceCount.
  effects. rewrite Hnone. repeat split.
Qed.

Lemma no_caller_no_request_witness :
  run getScamTypeDistribution signed_out = (Returned [], initial)
  /\ run Counts.getActiveConversationsCount signed_out = (Returned 0, initial)
  /\ run Counts.getIntelligenceCount signed_out = (Returned 0, initial).
Proof.
  apply (no_caller_no_request signed_out). reflexivity.
Defined.

(** X: for an identified caller, each counter sends the request that
    [getStats] sends for the same figure.  When the counter returns, its
    value is the field of the stats record; when the request fails (the
    answer then carries no count), the counter throws the error of the
    store while the field of the stats record is 0. *)
Theorem counters_and_stats :
  forall (h : Host) (user : User),
    current_user h = Some user ->
    (forall q e, error (respond h q) = Some e ->
                 Supabase.count (respond h q) = None) ->
    exists stats st,
      run getStats h = (Returned stats, st)
      /\ queries (snd (run Counts.getActiveConversationsCount h)) =
         [active_conversations_query user]
      /\ queries (snd (run Counts.getIntelligenceCount h)) =
         [intelligence_query user]
      /\ match fst (run Counts.getActiveConversationsCount h) with
         | Returned n => n = activeConversations stats
         | Thrown x =>
             activeConversations stats = 0
             /\ exists e, x = StoreError e
                          /\ error (respond h (active_conversations_query user)) = Some e
         end
      /\ match fst (run Counts.getIntelligenceCount h) with
         | Returned n => n = intelligenceExtracted stats
         | Thrown x =>
             intelligenceExtracted stats = 0
             /\ exists e, x = StoreError e
                          /\ error (respond h (intelligence_query user)) = Some e
         end.
Proof.
  intros h user Huser Hfailed.
  rewrite (getStats_identified h user Huser).
  eexists. eexists. split; [reflexivity|].
  unfold Counts.getActiveConversationsCount, Counts.getIntelligenceCount.
  effects. rewrite Huser.
  change (select_count "conversations"
            [eq "user_id" (VText (id user)); eq "status" (VText "active")])
    with (active_conversations_query user).
  change (select_count "intelligence" [eq "user_id" (VText (id user))])
    with (intelligence_query user).
  cbn [activeConversations intelligenceExtracted].
  pose proof (Hfailed (active_conversations_query user)) as H1.
  pose proof (Hfailed (intelligence_query user)) as H2.
  destruct (error (respond h (active_conversations_query user))) as [e1|];
    destruct (error (respond h (intelligence_query user))) as [e2|];
    cbn [fst snd];
    repeat split; try reflexivity;
    try (rewrite (H1 _ eq_refl); reflexivity);
    try (rewrite (H2 _ eq_refl); reflexivity);
    eauto.
Qed.

Lemma counters_and_stats_witness :
  exists stats st,
    run getStats store_down = (Returned stats, st)
    /\ queries (snd (run Counts.getActiveConversationsCount store_down)) =
       [active_conversations_query alice]
    /\ queries (snd (run Counts.getIntelligenceCount store_down)) =
       [intelligence_query alice]
    /\ match fst (run Counts.getActiveConversationsCount store_down) with
       | Returned n => n = activeConversations stats
       | Thrown x =>
           activeConversations stats = 0
           /\ exists e, x = StoreError e
                        /\ error (respond store_down (active_conversations_query alice)) = Some e
       end
    /\ match fst (run Counts.getIntelligenceCount store_down) with
       | Returned n => n = intelligenceExtracted stats
       | Thrown x =>
           intelligenceExtracted stats = 0
           /\ exists e, x = StoreError e
                        /\ error (respond store_down (intelligence_query alice)) = Some e
       end.
Proof.
  apply (counters_and_stats store_down alice).
  - reflexivity.
  - intros q e _. reflexivity.
Defined.

(** ** The record wrappers *)

Section Wrappers.
Import Crud.
Import profileApi messageApi personaApi conversationApi intelligenceApi.

(** Unfolds a wrapper down to the answers of the store. *)
Ltac wrapper :=
  cbv beta iota zeta delta
    [Crud.run Crud.bind Crud.ret Crud.throw Crud.getUser Crud.await
     Crud.data_or_throw Crud.rows_or_throw Crud.done_or_throw Crud.start
     Crud.or_default Crud.now_iso Crud.reads Crud.sent
     getCurrentProfile getAllProfiles updateProfile
     createMessage messageApi.getMessages getRecentScams deleteMessage
     getPersonas createPersona updatePersona deletePersona ensureDefaultPersonas
     getConversations getConversation createConversation updateConversation
     deleteConversation
     conversationMessageApi.getMessages conversationMessageApi.addMessage
     getIntelligence createIntelligence deleteIntelligence getRecentIntelligence
     systemLogApi.getLogs].

Ltac propagation :=
  let b := fresh "b" in
  let q := fresh "q" in
  let e := fresh "e" in
  unfold propagates; intros b q e; wrapper;
  try (destruct (ESDate.toISOString _); [|intros []]);
  try (destruct (session b); [|intros []]);
  match goal with
  | |- context [Crud.error (answer b ?r)] =>
      destruct (Crud.error (answer b r)) eqn:?
  end;
  cbn [fst snd Crud.sent app]; intros [<-|[]] ?; split; congruence.

(** X: in every wrapper, a request that the store answers with an error
    makes the call throw that error as it is; the failed request is the
    only one sent and nothing is returned. *)
Theorem wrappers_throw_store_errors :
  propagates getCurrentProfile
  /\ propagates getAllProfiles
  /\ (forall id updates, propagates (updateProfile id updates))
  /\ (forall message, propagates (createMessage message))
  /\ (forall limit, propagates (messageApi.getMessages limit))
  /\ (forall limit, propagates (getRecentScams limit))
  /\ (forall id, propagates (deleteMessage id))
  /\ propagates getPersonas
  /\ (forall persona, propagates (createPersona persona))
  /\ (forall id updates, propagates (updatePersona id updates))
  /\ (forall id, propagates (deletePersona id))
  /\ (forall userId, propagates (ensureDefaultPersonas userId))
  /\ (forall limit, propagates (getConversations limit))
  /\ (forall id, propagates (getConversation id))
  /\ (forall conversation, propagates (createConversation conversation))
  /\ (forall id updates, propagates (updateConversation id updates))
  /\ (forall id, propagates (deleteConversation id))
  /\ (forall conversationId, propagates (conversationMessageApi.getMessages conversationId))
  /\ (forall message, propagates (conversationMessageApi.addMessage message))
  /\ (forall limit, propagates (getIntelligence limit))
  /\ (forall intelligence, propagates (createIntelligence intelligence))
  /\ (forall id, propagates (deleteIntelligence id))
  /\ (forall limit, propagates (getRecentIntelligence limit))
  /\ (forall limit, propagates (systemLogApi.getLogs limit)).
Proof.
  repeat match goal with |- _ /\ _ => split end; intros; propagation.
Qed.

Lemma wrappers_throw_store_errors_witness :
  fst (Crud.run (updateConversation "c1" [("status", FText "ended")]) broken_store)
  = Api.Thrown (Api.StoreError no_such_table)
  /\ Crud.sent (snd (Crud.run (updateConversation "c1" [("status", FText "ended")])
                             broken_store))
     = [update "conversations"
          [("status", FText "ended");
           ("updated_at", FText "2024-03-31T12:00:00.000Z")]
          [eq "id" (VText "c1")]].
Proof.
  refine (proj1 (proj2 (proj2 (proj2 (proj2 (proj2 (proj2 (proj2 (proj2
           (proj2 (proj2 (proj2 (proj2 (proj2 (proj2 (proj2
              wrappers_throw_store_errors)))))))))))))))
            "c1" [("status", FText "ended")] broken_store _ no_such_table _ _).
  - vm_compute. left. reflexivity.
  - reflexivity.
Defined.

(** X: the readers scoped to the caller return their empty value when no
    user is signed in ([null] for the profile, the empty array for the
    lists); they send nothing. *)
Theorem scoped_readers_without_session :
  guarded getCurrentProfile null
  /\ (forall limit, guarded (messageApi.getMessages limit) [])
  /\ (forall limit, guarded (getRecentScams limit) [])
  /\ guarded getPersonas []
  /\ (forall limit, guarded (getConversations limit) [])
  /\ (forall limit, guarded (getIntelligence limit) [])
  /\ (forall limit, guarded (getRecentIntelligence limit) []).
Proof.
  repeat match goal with |- _ /\ _ => split end; intros;
    unfold guarded; intros b Hb; wrapper; rewrite Hb; reflexivity.
Qed.

Lemma scoped_readers_without_session_witness :
  Crud.run (getRecentScams None) anonymous = (Api.Returned [], Crud.start).
Proof.
  refine (proj1 (proj2 (proj2 scoped_readers_without_session)) None anonymous _).
  reflexivity.
Defined.

Ltac independence :=
  let b := fresh "b" in
  let b' := fresh "b" in
  let Ha := fresh "Ha" in
  let Ht := fresh "Ht" in
  unfold unguarded; intros b; split;
  [ wrapper;
    match goal with
    | |- context [Crud.error (answer b ?r)] =>
        destruct (Crud.error (answer b r)); reflexivity
    end
  | intros b' Ha Ht; wrapper; rewrite Ha;
    match goal with
    | |- context [Crud.error (answer b ?r)] =>
        destruct (Crud.error (answer b r)); reflexivity
    end ].

(** X: the other wrappers never look at the session: whoever is signed in,
    or nobody, they send exactly one request, the same one, and do the
    same.  Updates and deletions are filtered by the [id] of the record
    alone. *)
Theorem unscoped_wrappers_ignore_session :
  unguarded getAllProfiles (select "profiles" "*" [] (Some ("created_at", false)) None many)
  /\ (forall id updates,
        unguarded (updateProfile id updates)
                  (update "profiles" updates [eq "id" (VText id)]))
  /\ (forall message,
        unguarded (createMessage message) (insert_returning "messages" message))
  /\ (forall id,
        unguarded (deleteMessage id) (delete "messages" [eq "id" (VText id)]))
  /\ (forall persona,
        unguarded (createPersona persona) (insert_returning "personas" persona))
  /\ (forall id updates,
        unguarded (updatePersona id updates)
                  (update "personas" updates [eq "id" (VText id)]))
  /\ (forall id,
        unguarded (deletePersona id) (delete "personas" [eq "id" (VText id)]))
  /\ (forall userId,
        unguarded (ensureDefaultPersonas userId)
                  (rpc "ensure_default_personas" [("p_user_id", FText userId)]))
  /\ (forall id,
        unguarded (getConversation id)
                  (select "conversations" "*, persona:personas(*)"
                          [eq "id" (VText id)] None None maybeSingle))
  /\ (forall conversation,
        unguarded (createConversation conversation)
                  (insert_returning "conversations" conversation))
  /\ (forall id,
        unguarded (deleteConversation id)
                  (delete "conversations" [eq "id" (VText id)]))
  /\ (forall conversationId,
        unguarded (conversationMessageApi.getMessages conversationId)
                  (select "conversation_messages" "*"
                          [eq "conversation_id" (VText conversationId)]
                          (Some ("timestamp", true)) None many))
  /\ (forall message,
        unguarded (conversationMessageApi.addMessage message)
                  (insert_returning "conversation_messages" message))
  /\ (forall intelligence,
        unguarded (createIntelligence intelligence)
                  (insert_returning "intelligence" intelligence))
  /\ (forall id,
        unguarded (deleteIntelligence id)
                  (delete "intelligence" [eq "id" (VText id)]))
  /\ (forall limit,
        unguarded (systemLogApi.getLogs limit)
                  (select "system_logs" "*" [] (Some ("created_at", false))
                          (Some (or_default 100 limit)) many)).
Proof.
  repeat match goal with |- _ /\ _ => split end; intros; independence.
Qed.

Lemma unscoped_wrappers_ignore_session_witness :
  Crud.run (deleteMessage "m1") anonymous
  = Crud.run (deleteMessage "m1") broken_store.
Proof.
  refine (proj2 (proj1 (proj2 (proj2 (proj2 unscoped_wrappers_ignore_session)))
                   "m1" broken_store) anonymous _ _); reflexivity.
Defined.

End Wrappers.

Section Stamp.
Import Crud.
Import conversationApi intelligenceApi.

Lemma spread_with_lookup_same :
  forall (r : Row) (k : string) (v : Field),
    lookup (spread_with r k v) k = Some v.
Proof.
  induction r as [|[k' v'] r IH]; intros k v; simpl.
  - rewrite String.eqb_refl. reflexivity.
  - destruct (String.eqb_spec k' k) as [->|Hne]; simpl.
    + rewrite String.eqb_refl. reflexivity.
    + destruct (String.eqb_spec k' k); [contradiction|]. apply IH.
Qed.

Lemma spread_with_lookup_other :
  forall (r : Row) (k x : string) (v : Field),
    x <> k -> lookup (spread_with r k v) x = lookup r x.
Proof.
  induction r as [|[k' v'] r IH]; intros k x v Hne; simpl.
  - destruct (String.eqb_spec k x); [congruence|reflexivity].
  - destruct (String.eqb_spec k' k) as [->|Hk]; simpl.
    + destruct (String.eqb_spec k x); [congruence|reflexivity].
    + destruct (String.eqb_spec k' x); [reflexivity|]. apply IH. exact Hne.
Qed.

Lemma spread_with_keys_present :
  forall (r : Row) (k : string) (v : Field),
    In k (map fst r) -> map fst (spread_with r k v) = map fst r.
Proof.
  induction r as [|[k' v'] r IH]; intros k v; simpl; [tauto|].
  destruct (String.eqb_spec k' k) as [->|Hne]; simpl; [reflexivity|].
  intros [H|H]; [contradiction|]. rewrite IH by exact H. reflexivity.
Qed.

Lemma spread_with_keys_absent :
  forall (r : Row) (k : string) (v : Field),
    ~ In k (map fst r) -> map fst (spread_with r k v) = (map fst r ++ [k])%list.
Proof.
  induction r as [|[k' v'] r IH]; intros k v Hout; simpl; [reflexivity|].
  simpl in Hout.
  destruct (String.eqb_spec k' k) as [->|Hne]; [tauto|]. simpl.
  rewrite IH by tauto. reflexivity.
Qed.

(** X: [updateConversation] sends one update of [conversations], filtered
    by the [id] alone, whose [updated_at] is the ISO rendering of the
    clock, read once: an [updated_at] passed by the caller is overwritten
    (at its place), every other column of [updates] is sent as passed, and
    a missing [updated_at] is added last. *)
Theorem updateConversation_stamps_updated_at :
  forall (b : Backend) (id : string) (updates : Row),
    Z.abs (time b 0) <= 8640000000000000 ->
    let stamp := ESDate.iso_date (time b 0) ++ "T" ++ ESDate.iso_time (time b 0) in
    exists payload,
      Crud.sent (snd (Crud.run (updateConversation id updates) b)) =
      [update "conversations" payload [eq "id" (VText id)]]
      /\ Crud.reads (snd (Crud.run (updateConversation id updates) b)) = 1%nat
      /\ lookup payload "updated_at" = Some (FText stamp)
      /\ (forall k, k <> "updated_at" -> lookup payload k = lookup updates k)
      /\ (In "updated_at" (map fst updates) -> map fst payload = map fst updates)
      /\ (~ In "updated_at" (map fst updates) ->
          map fst payload = (map fst updates ++ ["updated_at"])%list).
Proof.
  intros b id updates Hnow stamp.
  exists (spread_with updates "updated_at" (FText stamp)).
  assert (E : ESDate.toISOString (ESDate.TimeClip (time b 0)) = Some stamp).
  { rewrite (TimeClip_valid _ Hnow). reflexivity. }
  split; [|split; [|split; [|split; [|split]]]].
  - unfold Crud.run, updateConversation, Crud.bind at 1, now_iso.
    cbn [Crud.reads Crud.start]. rewrite E.
    unfold Crud.bind, Crud.await, done_or_throw. cbn [Crud.sent Crud.reads].
    destruct (Crud.error _); reflexivity.
  - unfold Crud.run, updateConversation, Crud.bind at 1, now_iso.
    cbn [Crud.reads Crud.start]. rewrite E.
    unfold Crud.bind, Crud.await, done_or_throw. cbn [Crud.sent Crud.reads].
    destruct (Crud.error _); reflexivity.
  - apply spread_with_lookup_same.
  - intros k Hk. apply spread_with_lookup_other. exact Hk.
  - apply spread_with_keys_present.
  - apply spread_with_keys_absent.
Qed.

Lemma updateConversation_stamps_updated_at_witness :
  exists payload,
    Crud.sent (snd (Crud.run
                      (updateConversation "c1"
                         [("updated_at", FText "1999-12-31T00:00:00.000Z");
                          ("status", FText "ended")])
                      empty_store)) =
    [update "conversations" payload [eq "id" (VText "c1")]]
    /\ Crud.reads (snd (Crud.run
                          (updateConversation "c1"
                             [("updated_at", FText "1999-12-31T00:00:00.000Z");
                              ("status", FText "ended")])
                          empty_store)) = 1%nat
    /\ lookup payload "updated_at" =
       Some (FText (ESDate.iso_date 1711886400000 ++ "T"
                    ++ ESDate.iso_time 1711886400000))
    /\ (forall k, k <> "updated_at" ->
                  lookup payload k =
                  lookup [("updated_at", FText "1999-12-31T00:00:00.000Z");
                          ("status", FText "ended")] k)
    /\ (In "updated_at" ["updated_at"; "status"] ->
        map fst payload = ["updated_at"; "status"])
    /\ (~ In "updated_at" ["updated_at"; "status"] ->
        map fst payload = (["updated_at"; "status"] ++ ["updated_at"])%list).
Proof.
  apply (updateConversation_stamps_updated_at empty_store "c1"
           [("updated_at", FText "1999-12-31T00:00:00.000Z");
            ("status", FText "ended")]).
  simpl. lia.
Defined.

End Stamp.

(** ** [getDailyDetections]: what each bucket counts *)

(** X: in every time zone, the count of each bucket returned is a number:
    the number of retrieved rows whose UTC date is the date of the bucket
    (0 when there is none), also when two buckets carry the same date. *)
Theorem daily_bucket_counts :
  forall (h : Host) (days : Z) (buckets : list DailyDetection) (st : State),
    run (getDailyDetections days) h = (Returned buckets, st) ->
    Forall (fun b => count b =
                     JS.Prim (JS.Num (occurrences (date b)
                                        (map utc_date (retrieved h st)))))
           buckets
    /\ Forall (fun b => 0 <= number (count b)
                        <= Z.of_nat (List.length (retrieved h st)))
              buckets.
Proof.
  intros h days buckets st Hrun.
  assert (H : Forall (fun b => count b =
                        JS.Prim (JS.Num (occurrences (date b)
                                           (map utc_date (retrieved h st)))))
                     buckets).
  { destruct (getDailyDetections_returns h days buckets st Hrun)
      as [[_ [-> _]]|[user [iso [st1 [_ [_ [_ [Hev Hfill]]]]]]]]; [constructor|].
    unfold retrieved. rewrite Hev. cbn [flat_map]. rewrite app_nil_r.
    apply fill_buckets_returns in Hfill.
    destruct Hfill as [new [E [_ Hall]]]. simpl in E. subst new.
    revert Hall. apply Forall_impl. intros b [Hb ->].
    apply counter_read; [|exact Hb].
    apply Forall_forall. intros d Hd. apply in_map_iff in Hd.
    destruct Hd as [r [<- _]]. apply iso_date_not_inherited. }
  split; [exact H|].
  revert H. apply Forall_impl. intros b ->. cbn [number].
  unfold occurrences. split; [lia|].
  apply inj_le. rewrite <- (length_map utc_date (retrieved h st)).
  apply count_occ_bound.
Qed.

Lemma daily_bucket_counts_witness :
  let st := {| clock_reads := 4;
               events := [Queried (daily_query alice "2024-03-29T00:30:00.000Z")] |} in
  let buckets := [ {| date := "2024-03-30"; count := JS.Prim (JS.Num 0) |};
                   {| date := "2024-03-31"; count := JS.Prim (JS.Num 1) |};
                   {| date := "2024-03-31"; count := JS.Prim (JS.Num 1) |} ] in
  Forall (fun b => count b =
                   JS.Prim (JS.Num (occurrences (date b)
                                      (map utc_date (retrieved berlin_host st)))))
         buckets
  /\ Forall (fun b => 0 <= number (count b)
                      <= Z.of_nat (List.length (retrieved berlin_host st)))
            buckets.
Proof.
  intros st buckets.
  apply (daily_bucket_counts berlin_host 3 buckets st).
  vm_compute. reflexivity.
Defined.

(** ** [getDailyDetections]: the total on a host whose zone keeps one offset *)

Lemma trailing_days_In :
  forall (today : Z) (n : nat) (d : Z),
    today - Z.of_nat n < d <= today -> In d (trailing_days today n).
Proof.
  intros today. induction n as [|i IH]; intros d Hd; [lia|].
  cbn [trailing_days In].
  destruct (Z.eq_dec d (today - Z.of_nat i)) as [->|Hne]; [left; reflexivity|].
  right. apply IH. lia.
Qed.

(** A valid row is dated in the trailing days exactly when its UTC day is
    one of them. *)
Lemma dated_in_trailing_days :
  forall (today : Z) (n : nat) (r : MessageRow),
    Z.abs today <= 100000000 -> Z.abs (today - Z.of_nat n) <= 100000000 ->
    Z.abs (created_at r) <= 8640000000000000 ->
    dated_in (map date_of_day (trailing_days today n)) r =
    (today - Z.of_nat n <? ESDate.Day (created_at r))
    && (ESDate.Day (created_at r) <=? today).
Proof.
  intros today n r Ht Hn Hr. unfold dated_in, utc_date.
  rewrite iso_date_Day. pose proof (valid_day _ Hr) as Hd.
  set (d := ESDate.Day (created_at r)) in *.
  destruct (Z.ltb_spec (today - Z.of_nat n) d) as [Hlo|Hlo];
    destruct (Z.leb_spec d today) as [Hhi|Hhi]; cbn [andb].
  - apply existsb_exists. exists (date_of_day d). split.
    + apply in_map. apply trailing_days_In. lia.
    + apply String.eqb_refl.
  - destruct (existsb _ _) eqn:E; [|reflexivity]. exfalso.
    apply existsb_exists in E. destruct E as [s [Hs E]].
    apply String.eqb_eq in E. subst s. apply in_map_iff in Hs.
    destruct Hs as [d' [E Hd']]. apply trailing_days_range in Hd'.
    apply date_of_day_inj in E; lia.
  - destruct (existsb _ _) eqn:E; [|reflexivity]. exfalso.
    apply existsb_exists in E. destruct E as [s [Hs E]].
    apply String.eqb_eq in E. subst s. apply in_map_iff in Hs.
    destruct Hs as [d' [E Hd']]. apply trailing_days_range in Hd'.
    apply date_of_day_inj in E; lia.
  - lia.
Qed.

(** X: on a host whose zone keeps one offset from UTC (clock on one UTC
    day, dates a [Date] can hold, a store that answers), the counts of the
    buckets add up to the number of retrieved rows whose UTC day is one of
    the [days] days that end today; rows of the day before, which the
    cutoff lets through, and rows of later days are left out. *)
Theorem daily_total_on_fixed_zone :
  forall (h : Host) (user : User) (off : Z) (days : Z),
    current_user h = Some user ->
    zone h = ESDate.fixed_zone off ->
    (forall k, ESDate.Day (clock h k) = ESDate.Day (clock h 0)) ->
    0 <= days ->
    (forall k i, 0 <= i <= days ->
                 Z.abs (clock h k - i * ESDate.msPerDay) <= 8640000000000000) ->
    (forall q, error (respond h q) = None) ->
    (forall q, Forall (fun r => Z.abs (created_at r) <= 8640000000000000)
                      (rows_of (data (respond h q)))) ->
    exists buckets st,
      run (getDailyDetections days) h = (Returned buckets, st)
      /\ sum_counts buckets =
         Z.of_nat
           (List.length
              (filter (fun r =>
                         (ESDate.Day (clock h 0) - days <? ESDate.Day (created_at r))
                         && (ESDate.Day (created_at r) <=? ESDate.Day (clock h 0)))
                      (retrieved h st))).
Proof.
  intros h user off days Huser Hzone Hday Hdays Hvalid Hok Hrows.
  destruct (daily_detections_fixed_zone h user off days
              Huser Hzone Hday Hdays Hvalid Hok Hrows) as [st [E _]].
  eexists. exists st. split; [exact E|].
  set (today := ESDate.Day (clock h 0)) in *.
  set (fetched := retrieved h st) in *.
  assert (B : forall i, 0 <= i <= days -> Z.abs (today - i) <= 100000000).
  { intros i Hi. unfold today. rewrite <- Day_back.
    apply valid_day. apply Hvalid. exact Hi. }
  assert (Hfetched : Forall (fun r => Z.abs (created_at r) <= 8640000000000000)
                            fetched).
  { destruct (getDailyDetections_returns h days _ st E)
      as [[Hnone _]|[user' [iso [st1 [_ [_ [_ [Hev _]]]]]]]]; [congruence|].
    unfold fetched, retrieved. rewrite Hev. cbn [flat_map]. rewrite app_nil_r.
    apply Hrows. }
  rewrite (sum_counts_read (map utc_date fetched)).
  - rewrite map_map. cbn [date].
    change (map (fun x => date_of_day x) (trailing_days today (Z.to_nat days)))
      with (map date_of_day (trailing_days today (Z.to_nat days))).
    rewrite occurrences_sum.
    + f_equal.
      assert (Hfilter : forall l,
                Forall (fun r => Z.abs (created_at r) <= 8640000000000000) l ->
                filter (fun x => existsb (String.eqb x)
                                   (map date_of_day (trailing_days today (Z.to_nat days))))
                       (map utc_date l)
                = map utc_date
                    (filter (fun r => (today - days <? ESDate.Day (created_at r))
                                      && (ESDate.Day (created_at r) <=? today)) l)).
      { intros l Hl. induction Hl as [|r l Hr _ IH]; [reflexivity|].
        cbn [map filter].
        pose proof (dated_in_trailing_days today (Z.to_nat days) r) as D.
        unfold dated_in in D. rewrite Z2Nat.id in D by lia.
        rewrite D; [|specialize (B 0); rewrite Z.sub_0_r in B; apply B; lia
                    |apply B; lia|exact Hr].
        destruct ((today - days <? ESDate.Day (created_at r))
                  && (ESDate.Day (created_at r) <=? today));
          cbn [map]; rewrite IH; reflexivity. }
      rewrite (Hfilter fetched Hfetched), length_map. reflexivity.
    + apply trailing_dates_NoDup.
      * specialize (B 0). rewrite Z.sub_0_r in B. apply B. lia.
      * rewrite Z2Nat.id by lia. apply B. lia.
  - apply Forall_forall. intros b Hb. apply in_map_iff in Hb.
    destruct Hb as [d [<- _]]. reflexivity.
Qed.

Lemma daily_total_on_fixed_zone_witness :
  exists buckets st,
    run (getDailyDetections 1) yesterday_evening_host = (Returned buckets, st)
    /\ sum_counts buckets =
       Z.of_nat
         (List.length
            (filter (fun r =>
                       (ESDate.Day (clock yesterday_evening_host 0) - 1
                        <? ESDate.Day (created_at r))
                       && (ESDate.Day (created_at r)
                           <=? ESDate.Day (clock yesterday_evening_host 0)))
                    (retrieved yesterday_evening_host st))).
Proof.
  apply (daily_total_on_fixed_zone yesterday_evening_host alice 0 1);
    try reflexivity.
  - lia.
  - intros k i Hi.
    unfold yesterday_evening_host, rows_host, host, clock, noon, ESDate.msPerDay.
    lia.
  - intros q. repeat constructor.
    unfold at_instant, created_at, noon, ESDate.msPerHour. lia.
Defined.

Section Answers.
Import Crud.
Import profileApi messageApi personaApi conversationApi intelligenceApi.

Ltac wrapper :=
  cbv beta iota zeta delta
    [Crud.run Crud.bind Crud.ret Crud.throw Crud.getUser Crud.await
     Crud.data_or_throw Crud.rows_or_throw Crud.done_or_throw Crud.start
     Crud.or_default Crud.reads Crud.sent
     getCurrentProfile getAllProfiles
     createMessage messageApi.getMessages getRecentScams
     getPersonas createPersona
     getConversations getConversation createConversation
     conversationMessageApi.getMessages conversationMessageApi.addMessage
     getIntelligence createIntelligence getRecentIntelligence
     systemLogApi.getLogs].

Ltac answered :=
  let b := fresh "b" in
  let q := fresh "q" in
  intros b q; wrapper;
  try (destruct (session b); [|intros []]);
  match goal with
  | |- context [Crud.error (answer b ?r)] =>
      destruct (Crud.error (answer b r)) eqn:?
  end;
  cbn [fst snd Crud.sent app]; intros [<-|[]] ?; congruence.

(** X: when the request succeeds, the readers of lists return the array
    of the answer, and the empty array when the answer holds [null] or a
    single record; the readers of one record and the creators return the
    [data] of the answer as it is, [null] when the store found nothing. *)
Theorem wrappers_return_the_answer :
  returns_rows getAllProfiles
  /\ (forall limit, returns_rows (messageApi.getMessages limit))
  /\ (forall limit, returns_rows (getRecentScams limit))
  /\ returns_rows getPersonas
  /\ (forall limit, returns_rows (getConversations limit))
  /\ (forall conversationId, returns_rows (conversationMessageApi.getMessages conversationId))
  /\ (forall limit, returns_rows (getIntelligence limit))
  /\ (forall limit, returns_rows (getRecentIntelligence limit))
  /\ (forall limit, returns_rows (systemLogApi.getLogs limit))
  /\ returns_data getCurrentProfile
  /\ (forall id, returns_data (getConversation id))
  /\ (forall message, returns_data (createMessage message))
  /\ (forall persona, returns_data (createPersona persona))
  /\ (forall conversation, returns_data (createConversation conversation))
  /\ (forall message, returns_data (conversationMessageApi.addMessage message))
  /\ (forall intelligence, returns_data (createIntelligence intelligence)).
Proof.
  repeat match goal with |- _ /\ _ => split end; intros;
    unfold returns_rows, returns_data; answered.
Qed.

Lemma wrappers_return_the_answer_witness :
  fst (Crud.run (messageApi.getMessages None) nothing_found) = Api.Returned []
  /\ fst (Crud.run (getConversation "c1") nothing_found) = Api.Returned null.
Proof.
  split.
  - refine (proj1 (proj2 wrappers_return_the_answer) None nothing_found _ _ _).
    + vm_compute. left. reflexivity.
    + reflexivity.
  - refine (proj1 (proj2 (proj2 (proj2 (proj2 (proj2 (proj2 (proj2 (proj2
             (proj2 (proj2 wrappers_return_the_answer))))))))))
              "c1" nothing_found _ _ _).
    + vm_compute. left. reflexivity.
    + reflexivity.
Defined.

End Answers.

(** ** [getDailyDetections]: the sum of the counts and the retrieved rows *)

(** A row of one of the [days] days that end today is not older than the
    cutoff, [days] times 24 hours before now. *)
Lemma counted_days_after_cutoff :
  forall (now days : Z) (r : MessageRow),
    (ESDate.Day now - days <? ESDate.Day (created_at r))
    && (ESDate.Day (created_at r) <=? ESDate.Day now) = true ->
    on_or_after (Some (now - days * ESDate.msPerDay)) r = true.
Proof.
  intros now days r H. apply andb_true_iff in H. destruct H as [H _].
  apply Z.ltb_lt in H. unfold on_or_after. apply Z.leb_le.
  unfold ESDate.Day, ESDate.msPerDay in *. Z.div_mod_to_equations. lia.
Qed.



(** ** [getScamTypeDistribution]: the order of the result, whatever the labels *)

Section KeyOrder.

Lemma replace_keys :
  forall (o : JS.Obj) (k : string) (v : JS.Val),
    map fst (JS.replace o k v) = map fst o.
Proof.
  induction o as [|[k' v'] o IH]; intros k v; simpl; [reflexivity|].
  destruct (String.eqb k' k); simpl; [reflexivity|]. rewrite IH. reflexivity.
Qed.

(** The keys of the counter object are the counted labels other than
    [__proto__], each once, in the order of first occurrence. *)
Lemma tally_keys :
  forall L : list string,
    map fst (fold_left bump L JS.empty) =
    first_occurrences (filter (fun k => negb (String.eqb k "__proto__")) L).
Proof.
  induction L as [|k L IH] using rev_ind; [reflexivity|].
  rewrite fold_left_app, filter_app. cbn [fold_left filter].
  pose proof (tally_keeps_proto_out L JS.empty eq_refl) as Hproto.
  set (o := fold_left bump L JS.empty) in *.
  destruct (String.eqb_spec k "__proto__") as [->|Hne]; cbn [negb].
  - rewrite (bump_proto o Hproto), app_nil_r. exact IH.
  - unfold bump, JS.set.
    destruct (JS.own o k) as [w|] eqn:Eo.
    + rewrite replace_keys, IH.
      symmetry. apply first_occurrences_seen.
      apply first_occurrences_In. rewrite <- IH.
      apply (in_map fst _ _ (own_Some_In _ _ _ Eo)).
    + destruct (String.eqb_spec k "__proto__"); [contradiction|].
      rewrite map_app, IH. cbn [map fst].
      symmetry. apply first_occurrences_new.
      intros Hin. apply (own_In o k); [|exact Eo].
      rewrite IH. apply first_occurrences_In. exact Hin.
Qed.

Lemma filter_keys :
  forall (p : string -> bool) (o : JS.Obj),
    map fst (filter (fun e => p (fst e)) o) = filter p (map fst o).
Proof.
  intros p. induction o as [|[k v] o IH]; [reflexivity|].
  cbn [filter map fst]. destruct (p k); cbn [map fst]; rewrite IH; reflexivity.
Qed.

End KeyOrder.

(** X: whatever the labels are, the labels of the result that are array
    indices come first, in ascending order of their numeric value; all the
    other counted labels follow, in the order of their first occurrence.
    [__proto__] is the one label left out. *)
Theorem scam_types_index_labels_first :
  forall (h : Host) (user : User),
    current_user h = Some user ->
    error (respond h (scam_type_query user)) = None ->
    let labels := counted_labels (rows_of (data (respond h (scam_type_query user)))) in
    let kept := first_occurrences
                  (filter (fun k => negb (String.eqb k "__proto__")) labels) in
    exists (ix : list (Z * string)) result,
      fst (run getScamTypeDistribution h) = Returned result
      /\ map type result =
         (map snd ix ++ filter (fun k => negb (JS.is_array_index k)) kept)%list
      /\ Permutation (map snd ix) (filter JS.is_array_index kept)
      /\ Forall ExpectedMore.indexed ix
      /\ StronglySorted Z.le (map fst ix).
Proof.
  intros h user Huser Hok labels kept.
  rewrite (getScamTypeDistribution_returns h user Huser Hok). fold labels.
  pose proof (tally_keys labels) as Hkeys. fold kept in Hkeys.
  set (o := fold_left bump labels JS.empty) in *.
  exists (map (fun p => (fst p, fst (snd p))) (JS.index_entries o)).
  eexists. split; [reflexivity|]. split; [|split; [|split]].
  - assert (Ht : forall l : list (string * JS.Val),
               map type (map (fun e => {| type := fst e; type_count := snd e |}) l)
               = map fst l)
      by (intros l; rewrite map_map; apply map_ext; reflexivity).
    rewrite Ht. unfold JS.entries, JS.named_entries. rewrite map_app.
    rewrite (filter_keys (fun k => negb (JS.is_array_index k)) o), Hkeys.
    f_equal. rewrite !map_map. reflexivity.
  - assert (Hix : map snd (map (fun p : Z * (string * JS.Val) => (fst p, fst (snd p)))
                               (JS.index_entries o))
                  = map fst (map snd (JS.index_entries o)))
      by (rewrite !map_map; reflexivity).
    rewrite Hix, <- Hkeys, <- (filter_keys JS.is_array_index o).
    apply Permutation_map. apply index_entries_Permutation.
  - apply Forall_forall. intros [n k] Hin. apply in_map_iff in Hin.
    destruct Hin as [[n' [k' v]] [E Hin]]. simpl in E. inversion E; subst.
    unfold ExpectedMore.indexed. simpl.
    exact (index_entries_indexed _ _ _ _ Hin).
  - rewrite map_map. cbn [fst]. apply index_entries_sorted.
Qed.

Lemma scam_types_index_labels_first_witness :
  let labels := ["b"; "__proto__"; "10"; "9"; "constructor"; "b"] in
  exists (ix : list (Z * string)) result,
    fst (run getScamTypeDistribution (labels_host labels)) = Returned result
    /\ map type result =
       (map snd ix
        ++ filter (fun k => negb (JS.is_array_index k))
                  ["b"; "10"; "9"; "constructor"])%list
    /\ Permutation (map snd ix)
                   (filter JS.is_array_index ["b"; "10"; "9"; "constructor"])
    /\ Forall ExpectedMore.indexed ix
    /\ StronglySorted Z.le (map fst ix).
Proof.
  intros labels.
  exact (scam_types_index_labels_first (labels_host labels) alice
           eq_refl eq_refl).
Defined.

(** ** [getIntelligence] and [getRecentIntelligence] *)

Section Intelligence.
Import Crud.
Import intelligenceApi.

(** X: for a signed-in user, [getRecentIntelligence] and [getIntelligence]
    send the same request (the caller's rows of [intelligence], newest
    first) up to the limit: the limit passed when there is one, else 5
    rows for [getRecentIntelligence] and 100 for [getIntelligence]; with a
    limit passed the two calls do the same. *)
Theorem recent_intelligence_is_intelligence :
  forall (b : Backend) (user : User) (limit : Z),
    session b = Some user ->
    let request n :=
      select "intelligence" "*" [eq "user_id" (VText (id user))]
             (Some ("created_at", false)) (Some n) many in
    Crud.sent (snd (Crud.run (getRecentIntelligence None) b)) = [request 5]
    /\ Crud.sent (snd (Crud.run (getIntelligence None) b)) = [request 100]
    /\ Crud.sent (snd (Crud.run (getRecentIntelligence (Some limit)) b)) = [request limit]
    /\ Crud.sent (snd (Crud.run (getIntelligence (Some limit)) b)) = [request limit]
    /\ Crud.run (getRecentIntelligence (Some limit)) b =
       Crud.run (getIntelligence (Some limit)) b.
Proof.
  intros b user limit Hb request.
  unfold getRecentIntelligence, getIntelligence, Crud.run, Crud.bind,
    Crud.getUser, Crud.await, rows_or_throw, or_default, newest_first.
  rewrite Hb. fold (request 5) (request 100) (request limit).
  destruct (Crud.error (answer b (request 5)));
    destruct (Crud.error (answer b (request 100)));
    destruct (Crud.error (answer b (request limit)));
    repeat split.
Qed.

Lemma recent_intelligence_is_intelligence_witness :
  let request n :=
    select "intelligence" "*" [eq "user_id" (VText (id bob))]
           (Some ("created_at", false)) (Some n) many in
  Crud.sent (snd (Crud.run (getRecentIntelligence None) empty_store)) = [request 5]
  /\ Crud.sent (snd (Crud.run (getIntelligence None) empty_store)) = [request 100]
  /\ Crud.sent (snd (Crud.run (getRecentIntelligence (Some 20)) empty_store)) = [request 20]
  /\ Crud.sent (snd (Crud.run (getIntelligence (Some 20)) empty_store)) = [request 20]
  /\ Crud.run (getRecentIntelligence (Some 20)) empty_store =
     Crud.run (getIntelligence (Some 20)) empty_store.
Proof.
  exact (recent_intelligence_is_intelligence empty_store bob 20 eq_refl).
Defined.

End Intelligence.
